(** * star-openapi: route, tag and schema registration of [APIRouter]

    A shallow embedding of [star_openapi/router.py] and
    [star_openapi/types.py], and the properties of the registration and
    merging logic: tags, security, servers, responses, component schemas,
    path prefixes and route binding.

    Python objects are modelled as follows.
    - [dict[str, Any]] ([paths], [components_schemas], the string-keyed
      responses) is a [gmap string _]; updating [d] with the items of [e],
      and the dict display that unpacks [d] and then [e], are the union
      in which the entries of [e] win.
    - A list attribute that the code appends to ([tags], [tag_names],
      [routes]) is a [list]; [append] adds at the end.
    - Methods that mutate [self] take the router and return the new one.
    - A route is given by the arguments of its constructor; the
      attributes [methods] and [name], which [Route.__init__] of
      Starlette sets from them and [register_api] reads, are functions
      of the route.
    - An [Operation] is a mutable object that [parse_method] stores in
      [paths] while later calls still fill it in.  The objects live in a
      store, the list [operations], and are referred to by position. *)

From stdpp Require Import base strings list gmap fin_maps pretty.

#[local] Open Scope string_scope.
#[local] Open Scope list_scope.

(** ** Strings *)

(** [s.startswith(prefix)] *)
Definition startswith (s prefix : string) : bool := String.prefix prefix s.

(** [c in chars] for a character [c] *)
Fixpoint char_in (c : Ascii.ascii) (chars : string) : bool :=
  match chars with
  | EmptyString => false
  | String a chars' => Ascii.eqb c a || char_in c chars'
  end.

(** [s.rstrip(chars)]: the trailing characters of [s] that occur in
    [chars] are removed. *)
Fixpoint rstrip (s chars : string) : string :=
  match s with
  | EmptyString => EmptyString
  | String a s' =>
      match rstrip s' chars with
      | EmptyString =>
          if char_in a chars then EmptyString else String a EmptyString
      | r => String a r
      end
  end.

(** [c.upper()] for one character: the letters [a] to [z] become [A] to
    [Z]. *)
Definition upper_ascii (c : Ascii.ascii) : Ascii.ascii :=
  let n := Ascii.N_of_ascii c in
  if ((97 <=? n) && (n <=? 122))%N then Ascii.ascii_of_N (n - 32) else c.

(** [s.upper()], for a string of ASCII characters, as the names of the
    HTTP methods are. *)
Fixpoint upper (s : string) : string :=
  match s with
  | EmptyString => EmptyString
  | String c s' => String (upper_ascii c) (upper s')
  end.

(** ** Values of the framework and of the schema library *)

(** The members of [http.HTTPMethod] that the decorators pass on. *)
Inductive HTTPMethod := GET | POST | PUT | DELETE | PATCH.

(** The method name a decorator writes in [methods=[...]]. *)
Definition method_name (m : HTTPMethod) : string :=
  match m with
  | GET => "GET" | POST => "POST" | PUT => "PUT"
  | DELETE => "DELETE" | PATCH => "PATCH"
  end.

Module Tag.
(** [models.Tag]; the router reads [name] only.  A tag written as a
    dict is the same record given by keywords. *)
Record t := mk { name : string; description : option string }.
End Tag.

(** A key of a [ResponseDict]: [str | int | HTTPStatus]
  ([types.py]); an [HTTPStatus] member is given by its [value]. *)
Inductive StatusKey :=
| KStr (s : string)
| KInt (n : Z)
| KStatus (value : Z).

(** One entry of a [security] list: [dict[str, list[str]]]. *)
Definition SecurityRequirement : Type := list (string * list string).

Section Router.

(** [Model]: the classes derived from [pydantic.BaseModel].
    [Any]: Python values that the router stores and passes on without
    looking inside (path items, schemas, servers, request bodies, ...).
    [Endpoint]: the request handlers that Starlette calls. *)
Context {Model Any Endpoint : Type}.

(** A route handler as the router sees it. *)
Record FunctionType := {
  __name__ : string;
  __doc__ : option string;
  __annotations__ : list (string * Any);
}.

(** [_ResponseDictValue = Type[BaseModel] | dict[Any, Any] | None] *)
Inductive ResponseDictValue :=
  | RModel (m : Model)
  | RDict (d : Any)
  | RNone.

(** [ResponseDict], in the order of its items. *)
Definition ResponseDict : Type := list (StatusKey * ResponseDictValue).

(** [ParametersTuple] ([types.py]): six slots, each a model class or
    [None]; the router unpacks them as
    [header, cookie, path, query, form, body]. *)
Definition ParametersTuple : Type :=
  (option Model * option Model * option Model *
   option Model * option Model * option Model)%type.

(** [ExternalDocumentation | dict[str, Any]] *)
Inductive ExternalDocs :=
  | ED_model (e : Any)
  | ED_dict (d : list (string * Any)).

(** [RequestBody | dict[str, Any]] *)
Inductive RequestBodyArg :=
  | RB_model (r : Any)
  | RB_dict (d : list (string * Any)).

(** The Operation object of OpenAPI ([models.Operation]).  The router
    assigns [externalDocs], [operationId], [deprecated], [security] and
    [servers]; the helpers of [utils.py] fill the other fields. *)
Record Operation := {
  op_tags : option (list string);
  op_summary : option string;
  op_description : option string;
  op_externalDocs : option ExternalDocs;
  op_operationId : option string;
  op_parameters : option Any;
  op_requestBody : option Any;
  op_responses : option Any;
  op_deprecated : option bool;
  op_security : option (list SecurityRequirement);
  op_servers : option (list Any);
  op_extensions : list (string * Any);
}.

(** ** Routes *)

(** What [Route.__init__] of Starlette ([starlette/routing.py]) looks
    at in an endpoint: [get_name(endpoint)], and whether [inspect] finds
    a function or a method in it. *)
Class Callable := {
  get_name : Endpoint -> string;
  isfunction_or_ismethod : Endpoint -> bool;
}.

Context {C : Callable}.

(** [APIRoute]: a Starlette [Route] that remembers [origin_path].  The
    record holds the arguments of the constructor; [init_methods] and
    [init_name] are its arguments [methods] and [name].  A collection of
    method names is given by its items.  The attributes [methods] and
    [name] that [Route.__init__] sets from them follow below. *)
Record APIRoute := {
  path : string;
  origin_path : string;
  endpoint : Endpoint;
  init_methods : option (list string);
  init_name : option string;
  include_in_schema : bool;
}.

(** The set that [Route.__init__] of Starlette makes of the method
    names it is given: the names are put in upper case, and [HEAD] is
    added to a set that holds [GET]. *)
Definition methods_set (methods_ : list string) : gset string :=
  let self_methods : gset string := list_to_set (upper <$> methods_) in
  if bool_decide ("GET" ∈ self_methods) then self_methods ∪ {["HEAD"]}
  else self_methods.

(** The attribute [methods] of a route, as [Route.__init__] sets it,
    which [APIRoute.__init__] calls: without the argument, a function or
    a method serves [GET], and another endpoint has no set of methods. *)
Definition methods (route : APIRoute) : option (gset string) :=
  let methods_ :=
    if isfunction_or_ismethod (endpoint route) then
      match init_methods route with
      | None => Some ["GET"]
      | Some methods_ => Some methods_
      end
    else init_methods route in
  methods_set <$> methods_.

(** The attribute [name] of a route, as [Route.__init__] sets it:
    [get_name(endpoint) if name is None else name]. *)
Definition name (route : APIRoute) : string :=
  match init_name route with
  | None => get_name (endpoint route)
  | Some name_ => name_
  end.

(** [APIWebSocketRoute]: its endpoint is the handler itself;
    [ws_init_name] is the argument [name] of the constructor. *)
Record APIWebSocketRoute := {
  ws_path : string;
  ws_origin_path : string;
  ws_endpoint : FunctionType;
  ws_init_name : option string;
}.

(** The attribute [name] of a websocket route, as
    [WebSocketRoute.__init__] of Starlette sets it; [get_name] of a
    function is its [__name__]. *)
Definition ws_name (route : APIWebSocketRoute) : string :=
  match ws_init_name route with
  | None => __name__ (ws_endpoint route)
  | Some name_ => name_
  end.

(** An element of Starlette's [Router.routes]. *)
Inductive BaseRoute :=
  | Route_API (route : APIRoute)
  | Route_WebSocket (route : APIWebSocketRoute)
  | Route_other (r : Any).

(** ** The router *)

Record APIRouter := {
  url_prefix : string;
  paths : gmap string Any;
  components_schemas : gmap string Any;
  tags : list Tag.t;
  api_tags : list Tag.t;
  tag_names : list string;
  security : list SecurityRequirement;
  operation_id_callback : string -> string -> string -> HTTPMethod -> string;
  responses : gmap string ResponseDictValue;
  doc_ui : bool;
  routes : list BaseRoute;
}.

Definition set_routes (self : APIRouter) (rs : list BaseRoute) : APIRouter :=
  {| url_prefix := url_prefix self;
     paths := paths self;
     components_schemas := components_schemas self;
     tags := tags self;
     api_tags := api_tags self;
     tag_names := tag_names self;
     security := security self;
     operation_id_callback := operation_id_callback self;
     responses := responses self;
     doc_ui := doc_ui self;
     routes := rs |}.

(** [x or []] for an optional list. *)
Definition or_nil {A} (x : option (list A)) : list A := default [] x.

(** Modelled from the spec: [convert_responses_key_to_string] of
    [utils.py], which is not among the sources.  Every status key
    ([int], [HTTPStatus] or [str]) becomes a string: a string stays as
    it is, a number is written in decimal, an [HTTPStatus] is written
    as its value.  Of two items with the same string the later one is
    kept, as in a dict comprehension. *)
Definition status_key_to_string (k : StatusKey) : string :=
  match k with
  | KStr s => s
  | KInt n => pretty n
  | KStatus value => pretty value
  end.

Definition convert_responses_key_to_string (responses : ResponseDict)
  : gmap string ResponseDictValue :=
  foldl (fun acc kv => <[status_key_to_string kv.1 := kv.2]> acc) ∅ responses.

(** [APIRouter.__init__]; [routes0] is the [routes] keyword that
    Starlette's [Router] takes through the remaining keywords. *)
Definition __init__
    (url_prefix_ : string)
    (tags_ : option (list Tag.t))
    (security_ : option (list SecurityRequirement))
    (operation_id_callback_ : string -> string -> string -> HTTPMethod -> string)
    (responses_ : option ResponseDict)
    (doc_ui_ : bool)
    (routes0 : list BaseRoute) : APIRouter :=
  {| url_prefix := url_prefix_;
     paths := ∅;
     components_schemas := ∅;
     tags := [];
     api_tags := or_nil tags_;
     tag_names := [];
     security := or_nil security_;
     operation_id_callback := operation_id_callback_;
     responses := convert_responses_key_to_string (default [] responses_);
     doc_ui := doc_ui_;
     routes := routes0 |}.

(** [APIRouter._add_route] *)
Definition _add_route (self : APIRouter) (path_ : string) (endpoint_ : Endpoint)
    (methods_ : option (list string)) (name_ : option string)
    (include_in_schema_ : bool) : APIRouter :=
  let '(origin_path_, path_) :=
    if negb (startswith path_ "/") then (path_, "/" +:+ path_)
    else (path_, path_) in
  let route :=
    {| path := path_;
       origin_path := origin_path_;
       endpoint := endpoint_;
       init_methods := methods_;
       init_name := name_;
       include_in_schema := include_in_schema_ |} in
  set_routes self (routes self ++ [Route_API route]).

(** [APIRouter._add_websocket_route] *)
Definition _add_websocket_route (self : APIRouter) (path_ : string)
    (endpoint_ : FunctionType) (name_ : option string) : APIRouter :=
  let '(origin_path_, path_) :=
    if negb (startswith path_ "/") then (path_, "/" +:+ path_)
    else (path_, path_) in
  let route :=
    {| ws_path := path_;
       ws_origin_path := origin_path_;
       ws_endpoint := endpoint_;
       ws_init_name := name_ |} in
  set_routes self (routes self ++ [Route_WebSocket route]).

(** The first loop of [register_api]: one step for one tag of [api]. *)
Definition store_tag (acc : list Tag.t * list string) (tag : Tag.t)
  : list Tag.t * list string :=
  if bool_decide (Tag.name tag ∈ acc.2) then acc
  else (acc.1 ++ [tag], acc.2 ++ [Tag.name tag]).

(** The last loop of [register_api]: one step for one route of [api].
    The attributes [methods] and [name] of the route are read; the set
    of methods is handed on as the collection of its elements. *)
Definition register_route (api_url_prefix : string) (self : APIRouter)
    (route : BaseRoute) : APIRouter :=
  match route with
  | Route_API route =>
      let path_with_prefix := api_url_prefix +:+ origin_path route in
      _add_route self path_with_prefix (endpoint route)
        (elements <$> methods route) (Some (name route)) true
  | Route_WebSocket route =>
      let path_with_prefix := api_url_prefix +:+ ws_origin_path route in
      _add_websocket_route self path_with_prefix (ws_endpoint route)
        (Some (ws_name route))
  | Route_other _ => self
  end.

(** [APIRouter.register_api], for a router [api] that is another object
    than [self]. *)
Definition register_api (self api : APIRouter) : APIRouter :=
  let '(tags1, tag_names1) :=
    foldl store_tag (tags self, tag_names self) (tags api) in
  let prefixed_paths : gmap string Any :=
    kmap (String.append (rstrip (url_prefix self) "/")) (paths api) in
  let self1 :=
    {| url_prefix := url_prefix self;
       paths := prefixed_paths ∪ paths self;
       components_schemas := components_schemas api ∪ components_schemas self;
       tags := tags1;
       api_tags := api_tags self;
       tag_names := tag_names1;
       security := security self;
       operation_id_callback := operation_id_callback self;
       responses := responses self;
       doc_ui := doc_ui self;
       routes := routes self |} in
  foldl (register_route (url_prefix api)) self1 (routes api).


(** ** The helpers of [utils.py] and [endpoint.py]

    These modules are not among the sources.  The router only calls
    them, so they are taken as an interface; the types follow the call
    sites in [router.py].  A helper that mutates an argument returns the
    argument as it is after the call. *)
Class Utils := {
  (** [get_operation(func, summary=, description=, openapi_extensions=)] *)
  get_operation :
    FunctionType -> option string -> option string ->
    option (list (string * Any)) -> Operation;
  (** [parse_and_store_tags(new_tags, old_tags, old_tag_names,
      operation)]: the results are [old_tags], [old_tag_names] and the
      operation as they are after the call. *)
  parse_and_store_tags :
    list Tag.t -> list Tag.t -> list string -> Operation ->
    list Tag.t * list string * Operation;
  (** [parse_rule(rule, url_prefix=)] *)
  parse_rule : string -> string -> string;
  (** [parse_method(uri, method, paths, operation)]: the operation is
      given by its position in the store; the result is [paths] after
      the call. *)
  parse_method : string -> HTTPMethod -> gmap string Any -> nat -> gmap string Any;
  (** [get_responses(responses, components_schemas, operation)] *)
  get_responses :
    gmap string ResponseDictValue -> gmap string Any -> Operation ->
    gmap string Any * Operation;
  (** [parse_parameters(func, components_schemas=None, operation=None,
      request_body=None, doc_ui=True)]: besides the six slots, the two
      objects as they are after the call, when they were given. *)
  parse_parameters :
    FunctionType -> option (gmap string Any) -> option Operation ->
    option Any -> bool ->
    ParametersTuple * option (gmap string Any) * option Operation;
  (** [create_endpoint(func, header, cookie, path, query, form, body)] *)
  create_endpoint :
    FunctionType -> option Model -> option Model -> option Model ->
    option Model -> option Model -> option Model -> Endpoint;
  (** [RequestBody( **request_body )] for a dict *)
  RequestBody_of_dict : list (string * Any) -> Any;
}.

Context {U : Utils}.

(** Assignments to the fields of an operation. *)
Definition set_externalDocs (o : Operation) (v : option ExternalDocs) : Operation :=
  {| op_tags := op_tags o; op_summary := op_summary o;
     op_description := op_description o; op_externalDocs := v;
     op_operationId := op_operationId o; op_parameters := op_parameters o;
     op_requestBody := op_requestBody o; op_responses := op_responses o;
     op_deprecated := op_deprecated o; op_security := op_security o;
     op_servers := op_servers o; op_extensions := op_extensions o |}.

Definition set_operationId (o : Operation) (v : option string) : Operation :=
  {| op_tags := op_tags o; op_summary := op_summary o;
     op_description := op_description o; op_externalDocs := op_externalDocs o;
     op_operationId := v; op_parameters := op_parameters o;
     op_requestBody := op_requestBody o; op_responses := op_responses o;
     op_deprecated := op_deprecated o; op_security := op_security o;
     op_servers := op_servers o; op_extensions := op_extensions o |}.

Definition set_deprecated (o : Operation) (v : option bool) : Operation :=
  {| op_tags := op_tags o; op_summary := op_summary o;
     op_description := op_description o; op_externalDocs := op_externalDocs o;
     op_operationId := op_operationId o; op_parameters := op_parameters o;
     op_requestBody := op_requestBody o; op_responses := op_responses o;
     op_deprecated := v; op_security := op_security o;
     op_servers := op_servers o; op_extensions := op_extensions o |}.

Definition set_security (o : Operation) (v : option (list SecurityRequirement))
  : Operation :=
  {| op_tags := op_tags o; op_summary := op_summary o;
     op_description := op_description o; op_externalDocs := op_externalDocs o;
     op_operationId := op_operationId o; op_parameters := op_parameters o;
     op_requestBody := op_requestBody o; op_responses := op_responses o;
     op_deprecated := op_deprecated o; op_security := v;
     op_servers := op_servers o; op_extensions := op_extensions o |}.

Definition set_servers (o : Operation) (v : option (list Any)) : Operation :=
  {| op_tags := op_tags o; op_summary := op_summary o;
     op_description := op_description o; op_externalDocs := op_externalDocs o;
     op_operationId := op_operationId o; op_parameters := op_parameters o;
     op_requestBody := op_requestBody o; op_responses := op_responses o;
     op_deprecated := op_deprecated o; op_security := op_security o;
     op_servers := v; op_extensions := op_extensions o |}.

Definition set_tags (o : Operation) (v : option (list string)) : Operation :=
  {| op_tags := v; op_summary := op_summary o;
     op_description := op_description o; op_externalDocs := op_externalDocs o;
     op_operationId := op_operationId o; op_parameters := op_parameters o;
     op_requestBody := op_requestBody o; op_responses := op_responses o;
     op_deprecated := op_deprecated o; op_security := op_security o;
     op_servers := op_servers o; op_extensions := op_extensions o |}.

(** [l or None] for a list: an empty list is falsy. *)
Definition or_None {A} (l : list A) : option (list A) :=
  match l with [] => None | _ => Some l end.

(** Truth value of [external_docs]: [None] and the empty dict are falsy. *)
Definition external_docs_true (e : option ExternalDocs) : bool :=
  match e with
  | None => false
  | Some (ED_dict []) => false
  | Some _ => true
  end.

(** The keyword arguments of the decorators [get], [post], [put],
    [delete] and [patch]. *)
Record Keywords := {
  kw_name : option string;
  kw_tags : option (list Tag.t);
  kw_summary : option string;
  kw_description : option string;
  kw_external_docs : option ExternalDocs;
  kw_operation_id : option string;
  kw_deprecated : option bool;
  kw_security : option (list SecurityRequirement);
  kw_servers : option (list Any);
  kw_openapi_extensions : option (list (string * Any));
  kw_request_body : option RequestBodyArg;
  kw_responses : option ResponseDict;
  kw_doc_ui : bool;
}.

(** The local [combine_responses] of [_collect_openapi_info]. *)
Definition combine_responses (self : APIRouter) (responses_ : option ResponseDict)
  : gmap string ResponseDictValue :=
  let endpoint_responses :=
    convert_responses_key_to_string (default [] responses_) in
  endpoint_responses ∪ responses self.

(** The local [_security] of [_collect_openapi_info]:
    [(security or []) + self.security or None]. *)
Definition _security (self : APIRouter)
    (security_ : option (list SecurityRequirement))
  : option (list SecurityRequirement) :=
  or_None (or_nil security_ ++ security self).

(** [operation_id or self.operation_id_callback(...)] *)
Definition operation_id_or_callback (self : APIRouter) (operation_id : option string)
    (func : FunctionType) (rule : string) (method : HTTPMethod) : string :=
  match operation_id with
  | Some (String a s) => String a s
  | _ => operation_id_callback self (url_prefix self) (__name__ func) rule method
  end.

(** [APIRouter._collect_openapi_info]; [operations] is the store of the
    operation objects, the new operation is put at its end. *)
Definition _collect_openapi_info (operations : list Operation) (self : APIRouter)
    (rule : string) (func : FunctionType) (kw : Keywords) (method : HTTPMethod)
  : list Operation * APIRouter * ParametersTuple :=
  if doc_ui self && kw_doc_ui kw then
    let combine_responses_ := combine_responses self (kw_responses kw) in
    let ref := length operations in
    let operation :=
      get_operation func (kw_summary kw) (kw_description kw)
        (kw_openapi_extensions kw) in
    let operation :=
      if external_docs_true (kw_external_docs kw)
      then set_externalDocs operation (kw_external_docs kw) else operation in
    let operation :=
      set_operationId operation
        (Some (operation_id_or_callback self (kw_operation_id kw) func rule method)) in
    let operation :=
      match kw_deprecated kw with
      | Some d => set_deprecated operation (Some d)
      | None => operation
      end in
    let operation :=
      match _security self (kw_security kw) with
      | Some s => set_security operation (Some s)
      | None => operation
      end in
    let operation :=
      match kw_servers kw with
      | Some (s :: l) => set_servers operation (Some (s :: l))
      | _ => operation
      end in
    let tags_ := or_nil (kw_tags kw) ++ api_tags self in
    let '(tags1, tag_names1, operation) :=
      parse_and_store_tags tags_ (tags self) (tag_names self) operation in
    let uri := parse_rule rule (url_prefix self) in
    let paths1 := parse_method uri method (paths self) ref in
    let request_body :=
      match kw_request_body kw with
      | Some (RB_dict d) => Some (RequestBody_of_dict d)
      | Some (RB_model r) => Some r
      | None => None
      end in
    let '(components_schemas1, operation) :=
      get_responses combine_responses_ (components_schemas self) operation in
    let '(parameters, components_schemas2, operation2) :=
      parse_parameters func (Some components_schemas1) (Some operation)
        request_body true in
    (operations ++ [default operation operation2],
     {| url_prefix := url_prefix self;
        paths := paths1;
        components_schemas := default components_schemas1 components_schemas2;
        tags := tags1;
        api_tags := api_tags self;
        tag_names := tag_names1;
        security := security self;
        operation_id_callback := operation_id_callback self;
        responses := responses self;
        doc_ui := doc_ui self;
        routes := routes self |},
     parameters)
  else
    (operations, self, (parse_parameters func None None None false).1.1).

(** A decorator that has no [request_body] keyword leaves the default. *)
Definition without_request_body (kw : Keywords) : Keywords :=
  {| kw_name := kw_name kw; kw_tags := kw_tags kw; kw_summary := kw_summary kw;
     kw_description := kw_description kw;
     kw_external_docs := kw_external_docs kw;
     kw_operation_id := kw_operation_id kw; kw_deprecated := kw_deprecated kw;
     kw_security := kw_security kw; kw_servers := kw_servers kw;
     kw_openapi_extensions := kw_openapi_extensions kw;
     kw_request_body := None; kw_responses := kw_responses kw;
     kw_doc_ui := kw_doc_ui kw |}.

(** [APIRouter.get(rule, ...)(func)]: the store and the router after the
    call, and the value the decorator returns. *)
Definition get (operations : list Operation) (self : APIRouter) (rule : string)
    (kw : Keywords) (func : FunctionType)
  : list Operation * APIRouter * FunctionType :=
  let '(operations, self, (header, cookie, path_, query, form, body)) :=
    _collect_openapi_info operations self rule func (without_request_body kw) GET in
  let endpoint_ := create_endpoint func header cookie path_ query form body in
  let self := _add_route self rule endpoint_ (Some ["GET"]) (kw_name kw) false in
  (operations, self, func).

(** [APIRouter.post(rule, ...)(func)] *)
Definition post (operations : list Operation) (self : APIRouter) (rule : string)
    (kw : Keywords) (func : FunctionType)
  : list Operation * APIRouter * FunctionType :=
  let '(operations, self, (header, cookie, path_, query, form, body)) :=
    _collect_openapi_info operations self rule func kw POST in
  let endpoint_ := create_endpoint func header cookie path_ query form body in
  let self := _add_route self rule endpoint_ (Some ["POST"]) (kw_name kw) false in
  (operations, self, func).

(** [APIRouter.put(rule, ...)(func)] *)
Definition put (operations : list Operation) (self : APIRouter) (rule : string)
    (kw : Keywords) (func : FunctionType)
  : list Operation * APIRouter * FunctionType :=
  let '(operations, self, (header, cookie, path_, query, form, body)) :=
    _collect_openapi_info operations self rule func kw PUT in
  let endpoint_ := create_endpoint func header cookie path_ query form body in
  let self := _add_route self rule endpoint_ (Some ["PUT"]) (kw_name kw) false in
  (operations, self, func).

(** [APIRouter.delete(rule, ...)(func)] *)
Definition delete (operations : list Operation) (self : APIRouter) (rule : string)
    (kw : Keywords) (func : FunctionType)
  : list Operation * APIRouter * FunctionType :=
  let '(operations, self, (header, cookie, path_, query, form, body)) :=
    _collect_openapi_info operations self rule func kw DELETE in
  let endpoint_ := create_endpoint func header cookie path_ query form body in
  let self := _add_route self rule endpoint_ (Some ["DELETE"]) (kw_name kw) false in
  (operations, self, func).

(** [APIRouter.patch(rule, ...)(func)] *)
Definition patch (operations : list Operation) (self : APIRouter) (rule : string)
    (kw : Keywords) (func : FunctionType)
  : list Operation * APIRouter * FunctionType :=
  let '(operations, self, (header, cookie, path_, query, form, body)) :=
    _collect_openapi_info operations self rule func kw PATCH in
  let endpoint_ := create_endpoint func header cookie path_ query form body in
  let self := _add_route self rule endpoint_ (Some ["PATCH"]) (kw_name kw) false in
  (operations, self, func).

(** [APIRouter.websocket(rule, name=)(func)] *)
Definition websocket (self : APIRouter) (rule : string) (name_ : option string)
    (func : FunctionType) : APIRouter * FunctionType :=
  (_add_websocket_route self rule func name_, func).

(** The decorator of an HTTP method. *)
Definition decorator (method : HTTPMethod)
  : list Operation -> APIRouter -> string -> Keywords -> FunctionType ->
    list Operation * APIRouter * FunctionType :=
  match method with
  | GET => get | POST => post | PUT => put | DELETE => delete | PATCH => patch
  end.

(** ** Notions used to state the properties *)

(** What the rest of this development relies on about the helpers that
    receive the operation: a new operation carries no [security] and no
    [servers], [parse_and_store_tags] leaves [security] and [servers]
    of the operation as it finds them, and [get_responses] and
    [parse_parameters] leave [tags], [security] and [servers] of the
    operation as they find them. *)
Record UtilsFrame : Prop := {
  parse_and_store_tags_frame : forall new_tags old_tags old_tag_names o,
    op_security (parse_and_store_tags new_tags old_tags old_tag_names o).2
      = op_security o /\
    op_servers (parse_and_store_tags new_tags old_tags old_tag_names o).2
      = op_servers o;
  get_operation_unset : forall func summary description extensions,
    op_security (get_operation func summary description extensions) = None /\
    op_servers (get_operation func summary description extensions) = None;
  get_responses_frame : forall rs cs o,
    op_tags (get_responses rs cs o).2 = op_tags o /\
    op_security (get_responses rs cs o).2 = op_security o /\
    op_servers (get_responses rs cs o).2 = op_servers o;
  parse_parameters_frame : forall func cs o rb d o',
    (parse_parameters func cs (Some o) rb d).2 = Some o' ->
    op_tags o' = op_tags o /\
    op_security o' = op_security o /\
    op_servers o' = op_servers o;
}.

(** The keywords that the decorator of [method] hands to
    [_collect_openapi_info]. *)
Definition collected_keywords (method : HTTPMethod) (kw : Keywords) : Keywords :=
  match method with
  | GET => without_request_body kw
  | _ => kw
  end.

(** The endpoint that a decorator makes from the handler and the six
    slots: [create_endpoint(func, header, cookie, path, query, form,
    body)]. *)
Definition endpoint_of_slots (func : FunctionType) (slots : ParametersTuple)
  : Endpoint :=
  let '(header, cookie, path_, query, form, body) := slots in
  create_endpoint func header cookie path_ query form body.

(** A path with a leading slash put before it when it has none. *)
Definition with_leading_slash (p : string) : string :=
  if startswith p "/" then p else "/" +:+ p.

(** The route that [register_api] adds to [self] for one route of
    [api], none for a route that is neither an [APIRoute] nor an
    [APIWebSocketRoute]. *)
Definition prefixed_route (api_url_prefix : string) (route : BaseRoute)
  : option BaseRoute :=
  match route with
  | Route_API r =>
      Some (Route_API
        {| path := with_leading_slash (api_url_prefix +:+ origin_path r);
           origin_path := api_url_prefix +:+ origin_path r;
           endpoint := endpoint r;
           init_methods := elements <$> methods r;
           init_name := Some (name r);
           include_in_schema := true |})
  | Route_WebSocket r =>
      Some (Route_WebSocket
        {| ws_path := with_leading_slash (api_url_prefix +:+ ws_origin_path r);
           ws_origin_path := api_url_prefix +:+ ws_origin_path r;
           ws_endpoint := ws_endpoint r;
           ws_init_name := Some (ws_name r) |})
  | Route_other _ => None
  end.

(** Nested registration: every router of [chain] is registered on the
    one before it, the innermost first, and the outermost on [self]. *)
Fixpoint register_chain (self : APIRouter) (chain : list APIRouter) : APIRouter :=
  match chain with
  | [] => self
  | api :: chain' => register_api self (register_chain api chain')
  end.

(** The url prefixes of the routers of a chain, one after the other. *)
Definition chain_prefix (chain : list APIRouter) : string :=
  foldr String.append "" (url_prefix <$> chain).


(** The value that a [ResponseDict] gives to the status written [s]:
    that of the last item whose key is written [s]. *)
Fixpoint response_for (s : string) (responses_ : ResponseDict)
  : option ResponseDictValue :=
  match responses_ with
  | [] => None
  | kv :: rest =>
      match response_for s rest with
      | Some v => Some v
      | None => if decide (status_key_to_string kv.1 = s) then Some kv.2 else None
      end
  end.

(** The operation as the router has made it when it hands it to
    [parse_and_store_tags]: made by [get_operation], then with the
    fields that [_collect_openapi_info] assigns itself. *)
Definition assigned_operation (self : APIRouter) (rule : string)
    (func : FunctionType) (kw : Keywords) (method : HTTPMethod) : Operation :=
  let operation :=
    get_operation func (kw_summary kw) (kw_description kw)
      (kw_openapi_extensions kw) in
  let operation :=
    if external_docs_true (kw_external_docs kw)
    then set_externalDocs operation (kw_external_docs kw) else operation in
  let operation :=
    set_operationId operation
      (Some (operation_id_or_callback self (kw_operation_id kw) func rule method)) in
  let operation :=
    match kw_deprecated kw with
    | Some d => set_deprecated operation (Some d)
    | None => operation
    end in
  let operation :=
    match _security self (kw_security kw) with
    | Some s => set_security operation (Some s)
    | None => operation
    end in
  match kw_servers kw with
  | Some (s :: l) => set_servers operation (Some (s :: l))
  | _ => operation
  end.

(** The local [request_body] of [_collect_openapi_info] when it reaches
    [parse_parameters]: a dict has become a [RequestBody]. *)
Definition converted_request_body (kw : Keywords) : option Any :=
  match kw_request_body kw with
  | Some (RB_dict d) => Some (RequestBody_of_dict d)
  | Some (RB_model r) => Some r
  | None => None
  end.


(** ** Notions for the further properties *)

(** What is relied on about the helpers for the fields [externalDocs],
    [operationId] and [deprecated] of an operation, which the router
    assigns itself: [parse_and_store_tags], [get_responses] and
    [parse_parameters] leave them as they find them. *)
Record UtilsFrameAssigned : Prop := {
  parse_and_store_tags_assigned : forall new_tags old_tags old_tag_names o,
    op_externalDocs (parse_and_store_tags new_tags old_tags old_tag_names o).2
      = op_externalDocs o /\
    op_operationId (parse_and_store_tags new_tags old_tags old_tag_names o).2
      = op_operationId o /\
    op_deprecated (parse_and_store_tags new_tags old_tags old_tag_names o).2
      = op_deprecated o;
  get_responses_assigned : forall rs cs o,
    op_externalDocs (get_responses rs cs o).2 = op_externalDocs o /\
    op_operationId (get_responses rs cs o).2 = op_operationId o /\
    op_deprecated (get_responses rs cs o).2 = op_deprecated o;
  parse_parameters_assigned : forall func cs o rb d o',
    (parse_parameters func cs (Some o) rb d).2 = Some o' ->
    op_externalDocs o' = op_externalDocs o /\
    op_operationId o' = op_operationId o /\
    op_deprecated o' = op_deprecated o;
}.

(** A route whose path is its [origin_path] with a leading slash put
    before it when it has none. *)
Definition route_well_formed (route : BaseRoute) : Prop :=
  match route with
  | Route_API r => path r = with_leading_slash (origin_path r)
  | Route_WebSocket r => ws_path r = with_leading_slash (ws_origin_path r)
  | Route_other _ => True
  end.

(** The routes that [register_api] takes over from [api]: those that
    are an [APIRoute] or an [APIWebSocketRoute]. *)
Definition taken_over (route : BaseRoute) : bool :=
  match route with
  | Route_API _ | Route_WebSocket _ => true
  | Route_other _ => false
  end.

(** [r] is what the router [r0] has become after some calls of the
    decorators, of [websocket] and of [register_api]. *)
Inductive evolves (r0 : APIRouter) : APIRouter -> Prop :=
  | evolves_refl : evolves r0 r0
  | evolves_decorator method operations self rule kw func :
      evolves r0 self ->
      evolves r0 (decorator method operations self rule kw func).1.2
  | evolves_websocket self rule name_ func :
      evolves r0 self ->
      evolves r0 (websocket self rule name_ func).1
  | evolves_register_api self api :
      evolves r0 self ->
      evolves r0 (register_api self api).

(** A keyword given as an empty list, taken as not given. *)
Definition omit_empty_list {A} (x : option (list A)) : option (list A) :=
  match x with
  | Some [] => None
  | _ => x
  end.

(** The keywords with every empty list, the empty dict for
    [external_docs] and the empty string for [operation_id] taken as
    not given. *)
Definition omit_empty (kw : Keywords) : Keywords :=
  {| kw_name := kw_name kw;
     kw_tags := omit_empty_list (kw_tags kw);
     kw_summary := kw_summary kw;
     kw_description := kw_description kw;
     kw_external_docs :=
       match kw_external_docs kw with
       | Some (ED_dict []) => None
       | e => e
       end;
     kw_operation_id :=
       match kw_operation_id kw with
       | Some EmptyString => None
       | i => i
       end;
     kw_deprecated := kw_deprecated kw;
     kw_security := omit_empty_list (kw_security kw);
     kw_servers := omit_empty_list (kw_servers kw);
     kw_openapi_extensions := kw_openapi_extensions kw;
     kw_request_body := kw_request_body kw;
     kw_responses := omit_empty_list (kw_responses kw);
     kw_doc_ui := kw_doc_ui kw |}.

End Router.

(** ** A small implementation of the helpers

    Models, opaque values and endpoints are strings here; it serves to
    run the embedding on concrete routers. *)
Module Sample.

Definition Slots : Type := @ParametersTuple string.

Definition Router : Type := @APIRouter string string (string * Slots).

(** The annotation of the parameter called [slot], when there is one. *)
Definition annotation (func : @FunctionType string) (slot : string)
  : option string :=
  (list_to_map (__annotations__ func) : gmap string string) !! slot.

Definition new_operation (summary description : option string)
    (extensions : option (list (string * string))) : @Operation string :=
  {| op_tags := None; op_summary := summary; op_description := description;
     op_externalDocs := None; op_operationId := None; op_parameters := None;
     op_requestBody := None; op_responses := None; op_deprecated := None;
     op_security := None; op_servers := None;
     op_extensions := default [] extensions |}.

(** The schemas of the response models are added under the model names. *)
Definition add_response_schemas (rs : gmap string (@ResponseDictValue string string))
    (cs : gmap string string) : gmap string string :=
  map_fold
    (fun _ v acc =>
       match v with
       | RModel m => <[m := "schema of " +:+ m]> acc
       | _ => acc
       end) cs rs.

(** Each new tag whose name is not yet among the tag names is stored,
    and the operation gets the names of the new tags. *)
Definition store_tags (new_tags old_tags : list Tag.t)
    (old_tag_names : list string) (operation : @Operation string)
  : list Tag.t * list string * @Operation string :=
  let '(old_tags', old_tag_names') :=
    foldl store_tag (old_tags, old_tag_names) new_tags in
  (old_tags', old_tag_names',
   set_tags operation (or_None (Tag.name <$> new_tags))).

Definition utils : @Utils string string (string * Slots) :=
  {| get_operation _ summary description extensions :=
       new_operation summary description extensions;
     parse_and_store_tags := store_tags;
     parse_rule rule url_prefix_ := rstrip url_prefix_ "/" +:+ rule;
     parse_method uri method paths_ ref :=
       <[uri := method_name method +:+ " operation " +:+ pretty ref]> paths_;
     get_responses rs cs o := (add_response_schemas rs cs, o);
     parse_parameters func cs o _ _ :=
       ((annotation func "header", annotation func "cookie",
         annotation func "path", annotation func "query",
         annotation func "form", annotation func "body"), cs, o);
     create_endpoint func header cookie path_ query form body :=
       (__name__ func, (header, cookie, path_, query, form, body));
     RequestBody_of_dict _ := "RequestBody" |}.

(** An endpoint is a function that bears the name of its handler. *)
#[global] Instance callable : @Callable (string * Slots) :=
  {| get_name e := e.1; isfunction_or_ismethod _ := true |}.

Definition callback (url_prefix_ name_ path_ : string) (method : HTTPMethod)
  : string :=
  name_ +:+ "_" +:+ method_name method.

Definition no_keywords : @Keywords string string :=
  {| kw_name := None; kw_tags := None; kw_summary := None;
     kw_description := None; kw_external_docs := None;
     kw_operation_id := None; kw_deprecated := None; kw_security := None;
     kw_servers := None; kw_openapi_extensions := None;
     kw_request_body := None; kw_responses := None; kw_doc_ui := true |}.

Definition handler (name_ : string) (annotations : list (string * string))
  : @FunctionType string :=
  {| __name__ := name_; __doc__ := None; __annotations__ := annotations |}.

(** [APIRouter(url_prefix=...)] *)
Definition router (url_prefix_ : string) : Router :=
  __init__ url_prefix_ None None callback None true [].

(** Two routers that hold a schema under the same name. *)
Definition parent_with_book : Router :=
  {| url_prefix := "/api"; paths := ∅;
     components_schemas := {[ "Book" := "schema of the parent" ]};
     tags := []; api_tags := []; tag_names := []; security := [];
     operation_id_callback := callback; responses := ∅; doc_ui := true;
     routes := [] |}.

Definition child_with_book : Router :=
  {| url_prefix := "/v1"; paths := ∅;
     components_schemas := {[ "Book" := "schema of the child" ]};
     tags := []; api_tags := []; tag_names := []; security := [];
     operation_id_callback := callback; responses := ∅; doc_ui := true;
     routes := [] |}.

(** The inputs of [tests/test_openapi.py]: a router with tags, security
    and responses of its own, and the keywords of a documented and of a
    hidden route. *)
Definition jwt : SecurityRequirement := [("jwt", [])].

Definition oauth : SecurityRequirement := [("oauth2", ["read"; "write"])].

Definition api : Router :=
  __init__ "/api" (Some [Tag.mk "api name" None]) (Some [jwt]) callback
    (Some [(KStr "422", RModel "ValidationErrorModel");
           (KStatus 404, RNone)])
    true [].

Definition plain : Router := router "".

Definition book_keywords : @Keywords string string :=
  {| kw_name := None;
     kw_tags := Some [Tag.mk "book" (Some "book description")];
     kw_summary := Some "Book2"; kw_description := Some "Book description";
     kw_external_docs := None; kw_operation_id := None;
     kw_deprecated := Some false; kw_security := Some [oauth];
     kw_servers := Some ["https://www.openapis.org/"];
     kw_openapi_extensions := None; kw_request_body := None;
     kw_responses := Some [(KInt 422, RModel "ErrorModel")];
     kw_doc_ui := true |}.

Definition hidden_keywords : @Keywords string string :=
  {| kw_name := None; kw_tags := None; kw_summary := None;
     kw_description := None; kw_external_docs := None;
     kw_operation_id := None; kw_deprecated := None; kw_security := None;
     kw_servers := None; kw_openapi_extensions := None;
     kw_request_body := None; kw_responses := None; kw_doc_ui := false |}.

Definition get_book : @FunctionType string :=
  handler "get_book" [("path", "BookPath"); ("query", "BookQuery")].

(** [api] after [@api.post("/book2", ...)] on [get_book]. *)
Definition api_with_book : Router :=
  (post (U := utils) [] api "/book2" book_keywords get_book).1.2.


(** The routers of [tests/test_nested_api_router.py]. *)
Definition english_keywords : @Keywords string string :=
  {| kw_name := None;
     kw_tags := Some [Tag.mk "english" (Some "english description")];
     kw_summary := None; kw_description := None; kw_external_docs := None;
     kw_operation_id := None; kw_deprecated := None; kw_security := None;
     kw_servers := None; kw_openapi_extensions := None;
     kw_request_body := None; kw_responses := None; kw_doc_ui := true |}.

Definition api_english : Router :=
  (get (U := utils) [] (router "") "/english" english_keywords
     (handler "get_english_book" [])).1.2.

Definition api_chinese : Router :=
  (websocket
     (get (U := utils) [] (router "") "/chinese" no_keywords
        (handler "get_chinese_book" [])).1.2
     "/ws" None
     (handler "websocket_endpoint_with_api_router" [("websocket", "WebSocket")])).1.

Definition api_book : Router :=
  register_api (register_api (router "/api/book") api_english) api_chinese.

Definition app : Router := register_api (router "") api_book.

(** The path at which Starlette serves a route of the router. *)
Definition served_path (route : @BaseRoute string (string * Slots))
  : option string :=
  match route with
  | Route_API r => Some (path r)
  | Route_WebSocket r => Some (ws_path r)
  | Route_other _ => None
  end.

(** The name of a route and the methods that Starlette lets through to
    it. *)
Definition served_methods (route : @BaseRoute string (string * Slots))
  : option (string * option (gset string)) :=
  match route with
  | Route_API r => Some (name r, methods r)
  | Route_WebSocket _ | Route_other _ => None
  end.

(** The keywords of a route with an operation id and external docs of
    its own. *)
Definition documented_keywords : @Keywords string string :=
  {| kw_name := None; kw_tags := None; kw_summary := None;
     kw_description := None;
     kw_external_docs := Some (ED_dict [("url", "https://www.openapis.org/")]);
     kw_operation_id := Some "create_book";
     kw_deprecated := Some false; kw_security := None; kw_servers := None;
     kw_openapi_extensions := None; kw_request_body := None;
     kw_responses := None; kw_doc_ui := true |}.

(** [Sample.api_with_book] after the registration of the nested routers. *)
Definition api_with_all : Router := register_api api_with_book api_book.

End Sample.

(** * Properties *)

Section RouterFacts.

Context {Model Any Endpoint : Type}.
Context {C : @Callable Endpoint}.

Implicit Types self api : @APIRouter Model Any Endpoint.
Implicit Types route : @BaseRoute Any Endpoint.

Lemma set_routes_self self : set_routes self (routes self) = self.
Proof. by destruct self. Qed.

Lemma _add_route_eq self p e m n i :
  _add_route self p e m n i =
  set_routes self
    (routes self ++
     [Route_API {| path := with_leading_slash p; origin_path := p;
                   endpoint := e; init_methods := m; init_name := n;
                   include_in_schema := i |}]).
Proof.
  unfold _add_route, with_leading_slash.
  by destruct (startswith p "/").
Qed.

Lemma _add_websocket_route_eq self p (e : @FunctionType Any) n :
  _add_websocket_route self p e n =
  set_routes self
    (routes self ++
     [Route_WebSocket {| ws_path := with_leading_slash p; ws_origin_path := p;
                         ws_endpoint := e; ws_init_name := n |}]).
Proof.
  unfold _add_websocket_route, with_leading_slash.
  by destruct (startswith p "/").
Qed.

Lemma upper_ascii_idemp c : upper_ascii (upper_ascii c) = upper_ascii c.
Proof. by destruct c as [[] [] [] [] [] [] [] []]. Qed.

Lemma upper_idemp s : upper (upper s) = upper s.
Proof.
  induction s as [|c s IH]; [done|].
  change (String (upper_ascii (upper_ascii c)) (upper (upper s))
          = String (upper_ascii c) (upper s)).
  by rewrite upper_ascii_idemp, IH.
Qed.

(** A set of methods that [Route.__init__] has made stays as it is when
    a route is made of its elements. *)
Lemma methods_set_elements (l : list string) :
  methods_set (elements (methods_set l)) = methods_set l.
Proof.
  assert (forall x, x ∈ methods_set l -> upper x = x) as Hup.
  { intros x. unfold methods_set.
    destruct (bool_decide _);
      rewrite ?elem_of_union, ?elem_of_singleton, elem_of_list_to_set,
        list_elem_of_fmap.
    - intros [(y & -> & _) | ->]; [apply upper_idemp | done].
    - intros (y & -> & _). apply upper_idemp. }
  assert ((list_to_set (upper <$> elements (methods_set l)) : gset string)
          = methods_set l) as E.
  { apply set_eq. intros x.
    rewrite elem_of_list_to_set, list_elem_of_fmap. split.
    - intros (y & -> & Hy). apply elem_of_elements in Hy.
      by rewrite (Hup y Hy).
    - intros Hx. exists x. split; [by rewrite (Hup x Hx)|].
      by apply elem_of_elements. }
  unfold methods_set at 1. cbv zeta. rewrite E.
  destruct (bool_decide ("GET" ∈ methods_set l)) eqn:Hget; [|done].
  apply bool_decide_eq_true_1 in Hget.
  apply set_eq. intros x. rewrite elem_of_union, elem_of_singleton.
  split; [|by left]. intros [Hx | ->]; [done|].
  revert Hget. unfold methods_set.
  destruct (bool_decide _) eqn:Hb.
  - intros _. apply elem_of_union. right. by apply elem_of_singleton.
  - intros Hget. apply bool_decide_eq_false_1 in Hb. done.
Qed.

(** The route that [register_api] makes from the attributes of a route
    has the same [methods]. *)
Lemma methods_taken_over (r : @APIRoute Endpoint) p o i :
  methods {| path := p; origin_path := o; endpoint := endpoint r;
             init_methods := elements <$> methods r;
             init_name := Some (name r); include_in_schema := i |}
  = methods r.
Proof.
  unfold methods at 1. cbn [endpoint init_methods].
  unfold methods.
  destruct (isfunction_or_ismethod (endpoint r)), (init_methods r) as [l|];
    cbn [fmap option_fmap option_map]; try done;
    by rewrite methods_set_elements.
Qed.

Lemma register_route_eq pre self route :
  register_route pre self route =
  set_routes self (routes self ++ omap (prefixed_route pre) [route]).
Proof.
  destruct route as [r|r|r]; simpl.
  - by rewrite _add_route_eq.
  - by rewrite _add_websocket_route_eq.
  - by rewrite app_nil_r, set_routes_self.
Qed.

Lemma foldl_register_route pre self (l : list (@BaseRoute Any Endpoint)) :
  foldl (register_route pre) self l =
  set_routes self (routes self ++ omap (prefixed_route pre) l).
Proof.
  revert self. induction l as [|route l IH]; intros self.
  - simpl. by rewrite app_nil_r, set_routes_self.
  - change (foldl (register_route pre) self (route :: l))
      with (foldl (register_route pre) (register_route pre self route) l).
    rewrite IH, register_route_eq.
    change (route :: l) with ([route] ++ l).
    rewrite omap_app. unfold set_routes; simpl. by rewrite <- app_assoc.
Qed.

(** [register_api] in closed form. *)
Lemma register_api_eq self api :
  register_api self api =
  {| url_prefix := url_prefix self;
     paths :=
       kmap (String.append (rstrip (url_prefix self) "/")) (paths api)
       ∪ paths self;
     components_schemas := components_schemas api ∪ components_schemas self;
     tags := (foldl store_tag (tags self, tag_names self) (tags api)).1;
     api_tags := api_tags self;
     tag_names := (foldl store_tag (tags self, tag_names self) (tags api)).2;
     security := security self;
     operation_id_callback := operation_id_callback self;
     responses := responses self;
     doc_ui := doc_ui self;
     routes := routes self ++ omap (prefixed_route (url_prefix api)) (routes api) |}.
Proof.
  unfold register_api.
  destruct (foldl store_tag (tags self, tag_names self) (tags api)) as [ts ns].
  by rewrite foldl_register_route.
Qed.

(** C1, as amended: after [register_api self api] the component schemas
    hold every name of [self] and of [api]; a name of [api] has the
    schema of [api], also when [self] held another schema under it, and
    any other name keeps the schema of [self]. *)
Theorem register_api_components_schemas self api (k : string) :
  components_schemas (register_api self api) !! k =
  match components_schemas api !! k with
  | Some schema => Some schema
  | None => components_schemas self !! k
  end.
Proof.
  rewrite register_api_eq. simpl.
  rewrite lookup_union.
  destruct (components_schemas api !! k), (components_schemas self !! k); done.
Qed.

(** *** Prefixes *)

Lemma append_assoc (a b c : string) : (a +:+ b) +:+ c = a +:+ (b +:+ c).
Proof.
  induction a as [|x a IH]; [done |].
  change (String x ((a +:+ b) +:+ c) = String x (a +:+ (b +:+ c))).
  by rewrite IH.
Qed.

Lemma append_empty_r (a : string) : a +:+ "" = a.
Proof.
  induction a as [|x a IH]; [done |].
  change (String x (a +:+ "") = String x a). by rewrite IH.
Qed.

Lemma url_prefix_register_api self api :
  url_prefix (register_api self api) = url_prefix self.
Proof. by rewrite register_api_eq. Qed.

Lemma url_prefix_register_chain self (chain : list (@APIRouter Model Any Endpoint)) :
  url_prefix (register_chain self chain) = url_prefix self.
Proof. destruct chain; simpl; [done | apply url_prefix_register_api]. Qed.

Lemma routes_register_api self api :
  routes (register_api self api) =
  routes self ++ omap (prefixed_route (url_prefix api)) (routes api).
Proof. by rewrite register_api_eq. Qed.

(** A route of the innermost router of a chain, as the outermost router
    holds it after the nested registration. *)
Lemma register_chain_route self (chain : list (@APIRouter Model Any Endpoint))
    (r : @APIRoute Endpoint) :
  Route_API r ∈ routes (default self (last chain)) ->
  exists r' : @APIRoute Endpoint,
    Route_API r' ∈ routes (register_chain self chain) /\
    origin_path r' = chain_prefix chain +:+ origin_path r /\
    (chain <> [] -> path r' = with_leading_slash (origin_path r')) /\
    endpoint r' = endpoint r /\ methods r' = methods r /\ name r' = name r.
Proof.
  revert self. induction chain as [|api chain IH]; intros self Hin.
  - exists r. simpl in *. by repeat split.
  - assert (default self (last (api :: chain)) = default api (last chain)) as E.
    { rewrite last_cons. by destruct (last chain). }
    rewrite E in Hin. destruct (IH api Hin) as (r1 & Hr1 & Ho & _ & He & Hm & Hn).
    pose (pre := url_prefix (register_chain api chain)).
    exists {| path := with_leading_slash (pre +:+ origin_path r1);
              origin_path := pre +:+ origin_path r1;
              endpoint := endpoint r1;
              init_methods := elements <$> methods r1;
              init_name := Some (name r1); include_in_schema := true |}.
    split.
    { simpl. rewrite routes_register_api. apply elem_of_app. right.
      apply list_elem_of_omap. exists (Route_API r1). split; [exact Hr1 | reflexivity]. }
    assert (pre +:+ origin_path r1 = chain_prefix (api :: chain) +:+ origin_path r)
      as Hpre.
    { unfold pre. rewrite url_prefix_register_chain, Ho.
      symmetry. apply append_assoc. }
    rewrite methods_taken_over. cbn [origin_path path endpoint].
    unfold name at 1. cbn [init_name]. by repeat split.
Qed.

Lemma register_chain_websocket_route self
    (chain : list (@APIRouter Model Any Endpoint))
    (r : @APIWebSocketRoute Any) :
  Route_WebSocket r ∈ routes (default self (last chain)) ->
  exists r' : @APIWebSocketRoute Any,
    Route_WebSocket r' ∈ routes (register_chain self chain) /\
    ws_origin_path r' = chain_prefix chain +:+ ws_origin_path r /\
    (chain <> [] -> ws_path r' = with_leading_slash (ws_origin_path r')) /\
    ws_endpoint r' = ws_endpoint r /\ ws_name r' = ws_name r.
Proof.
  revert self. induction chain as [|api chain IH]; intros self Hin.
  - exists r. simpl in *. by repeat split.
  - assert (default self (last (api :: chain)) = default api (last chain)) as E.
    { rewrite last_cons. by destruct (last chain). }
    rewrite E in Hin. destruct (IH api Hin) as (r1 & Hr1 & Ho & _ & He & Hn).
    pose (pre := url_prefix (register_chain api chain)).
    exists {| ws_path := with_leading_slash (pre +:+ ws_origin_path r1);
              ws_origin_path := pre +:+ ws_origin_path r1;
              ws_endpoint := ws_endpoint r1;
              ws_init_name := Some (ws_name r1) |}.
    split.
    { simpl. rewrite routes_register_api. apply elem_of_app. right.
      apply list_elem_of_omap. exists (Route_WebSocket r1).
      split; [exact Hr1 | reflexivity]. }
    assert (pre +:+ ws_origin_path r1
            = chain_prefix (api :: chain) +:+ ws_origin_path r) as Hpre.
    { unfold pre. rewrite url_prefix_register_chain, Ho.
      symmetry. apply append_assoc. }
    simpl. by repeat split.
Qed.

(** C10: prefix composition under nesting.  For [register_api self api]:
    (i) every path key [k] of [api] is a key of [self] as the url prefix
    of [self] without its trailing slashes, followed by [k], with the
    same path item; (ii) the routes of [self] are followed by one route
    for every [APIRoute] and [APIWebSocketRoute] of [api], at the path
    [url_prefix api + origin_path] with a leading slash put before it
    when it has none; (iii) when routers are registered in a chain, the
    innermost first, a route of the innermost router is held by the
    outermost router [self] at the url prefixes of the routers of the
    chain, one after the other, followed by its original path. *)
Theorem register_api_prefix_composition self api :
  (forall (k : string) (item : Any),
      paths api !! k = Some item ->
      paths (register_api self api) !! (rstrip (url_prefix self) "/" +:+ k)
        = Some item) /\
  routes (register_api self api) =
    routes self ++ omap (prefixed_route (url_prefix api)) (routes api) /\
  (forall (chain : list (@APIRouter Model Any Endpoint)) inner,
      last chain = Some inner ->
      (forall r : @APIRoute Endpoint,
          Route_API r ∈ routes inner ->
          exists r' : @APIRoute Endpoint,
            Route_API r' ∈ routes (register_chain self chain) /\
            origin_path r' = chain_prefix chain +:+ origin_path r /\
            path r' = with_leading_slash (origin_path r') /\
            endpoint r' = endpoint r /\ methods r' = methods r /\
            name r' = name r) /\
      (forall r : @APIWebSocketRoute Any,
          Route_WebSocket r ∈ routes inner ->
          exists r' : @APIWebSocketRoute Any,
            Route_WebSocket r' ∈ routes (register_chain self chain) /\
            ws_origin_path r' = chain_prefix chain +:+ ws_origin_path r /\
            ws_path r' = with_leading_slash (ws_origin_path r') /\
            ws_endpoint r' = ws_endpoint r /\ ws_name r' = ws_name r)).
Proof.
  split; [|split].
  - intros k item Hk. rewrite register_api_eq. simpl.
    apply lookup_union_Some_l.
    rewrite lookup_kmap; [exact Hk | apply String.app_inj].
  - apply routes_register_api.
  - intros chain inner Hlast.
    assert (chain <> []) as Hne by (intros ->; discriminate).
    split; intros r Hin.
    + destruct (register_chain_route self chain r) as (r' & ? & ? & Hp & ? & ? & ?).
      { by rewrite Hlast. }
      exists r'. repeat split; auto.
    + destruct (register_chain_websocket_route self chain r)
        as (r' & ? & ? & Hp & ? & ?).
      { by rewrite Hlast. }
      exists r'. repeat split; auto.
Qed.

(** *** The decorators *)

Section Decorators.

Context {U : @Utils Model Any Endpoint}.

Implicit Types func : @FunctionType Any.
Implicit Types kw : @Keywords Model Any.
Implicit Types operations : list (@Operation Any).

(** [_collect_openapi_info] with the documentation on, call by call. *)
Lemma _collect_openapi_info_enabled operations self rule func kw method :
  doc_ui self = true -> kw_doc_ui kw = true ->
  _collect_openapi_info operations self rule func kw method =
  let t :=
    parse_and_store_tags (or_nil (kw_tags kw) ++ api_tags self) (tags self)
      (tag_names self) (assigned_operation self rule func kw method) in
  let r :=
    get_responses (combine_responses self (kw_responses kw))
      (components_schemas self) t.2 in
  let p :=
    parse_parameters func (Some r.1) (Some r.2) (converted_request_body kw)
      true in
  (operations ++ [default r.2 p.2],
   {| url_prefix := url_prefix self;
      paths :=
        parse_method (parse_rule rule (url_prefix self)) method (paths self)
          (length operations);
      components_schemas := default r.1 p.1.2;
      tags := t.1.1;
      api_tags := api_tags self;
      tag_names := t.1.2;
      security := security self;
      operation_id_callback := operation_id_callback self;
      responses := responses self;
      doc_ui := doc_ui self;
      routes := routes self |},
   p.1.1).
Proof.
  intros Hd Hk. unfold _collect_openapi_info. rewrite Hd, Hk.
  change (true && true) with true. cbv iota zeta.
  fold (assigned_operation self rule func kw method).
  fold (converted_request_body kw).
  destruct (parse_and_store_tags _ _ _ _) as [[ts1 ns1] o0].
  destruct (get_responses _ _ _) as [cs1 o1].
  by destruct (parse_parameters _ _ _ _ _) as [[ps cs2] o2].
Qed.

(** With the documentation switched off nothing but the slots is computed. *)
Lemma _collect_openapi_info_disabled operations self rule func kw method :
  doc_ui self && kw_doc_ui kw = false ->
  _collect_openapi_info operations self rule func kw method =
  (operations, self, (parse_parameters func None None None false).1.1).
Proof. intros H. unfold _collect_openapi_info. by rewrite H. Qed.

Lemma _collect_openapi_info_routes operations self rule func kw method :
  routes (_collect_openapi_info operations self rule func kw method).1.2
  = routes self.
Proof.
  unfold _collect_openapi_info.
  destruct (doc_ui self && kw_doc_ui kw); [|done].
  destruct (parse_and_store_tags _ _ _ _) as [[ts1 ns1] o0].
  destruct (get_responses _ _ _) as [cs1 o1].
  by destruct (parse_parameters _ _ _ _ _) as [[ps cs2] o2].
Qed.

(** The five decorators do the same with their own method. *)
Lemma decorator_eq method operations self rule kw func :
  decorator method operations self rule kw func =
  let r :=
    _collect_openapi_info operations self rule func
      (collected_keywords method kw) method in
  (r.1.1,
   _add_route r.1.2 rule (endpoint_of_slots func r.2)
     (Some [method_name method]) (kw_name kw) false,
   func).
Proof.
  destruct method; simpl;
    unfold get, post, put, delete, patch, endpoint_of_slots;
    by destruct (_collect_openapi_info _ _ _ _ _ _)
      as [[ops s] [[[[[h c] p] q] f] b]].
Qed.

Lemma collected_keywords_doc_ui method kw :
  kw_doc_ui (collected_keywords method kw) = kw_doc_ui kw.
Proof. by destruct method. Qed.

(** C8, as amended: route binding.  A decorator applied with [rule] adds
    exactly one route at the end of the routes of the router, bound to
    the endpoint made from the handler and the six slots; its
    [origin_path] is [rule], its path is [rule] with a leading slash put
    before it when it has none, and the decorator gives the route its
    one method.  The methods of the route are that method alone for
    [post], [put], [delete] and [patch]; for [get] they are [GET] and
    [HEAD], which Starlette adds to every route that serves [GET]. *)
Theorem decorator_registers_one_route method operations self rule kw func :
  exists r : @APIRoute Endpoint,
    routes (decorator method operations self rule kw func).1.2
      = routes self ++ [Route_API r] /\
    origin_path r = rule /\
    path r = (if startswith rule "/" then rule else "/" +:+ rule) /\
    endpoint r =
      endpoint_of_slots func
        (_collect_openapi_info operations self rule func
           (collected_keywords method kw) method).2 /\
    init_methods r =
      Some [match method with
            | GET => "GET" | POST => "POST" | PUT => "PUT"
            | DELETE => "DELETE" | PATCH => "PATCH"
            end] /\
    methods r =
      Some (match method with
            | GET => {["GET"; "HEAD"]}
            | POST => {["POST"]}
            | PUT => {["PUT"]}
            | DELETE => {["DELETE"]}
            | PATCH => {["PATCH"]}
            end) /\
    name r = default (get_name (endpoint r)) (kw_name kw) /\
    include_in_schema r = false.
Proof.
  rewrite decorator_eq. cbv zeta. rewrite _add_route_eq. simpl.
  rewrite _collect_openapi_info_routes.
  eexists. split; [reflexivity|]. unfold methods, name.
  cbn [origin_path path endpoint init_methods init_name include_in_schema].
  split; [done|]. split; [done|]. split; [done|].
  split; [by destruct method|].
  split; [|by destruct (kw_name kw)].
  destruct (isfunction_or_ismethod _); cbn [fmap option_fmap option_map];
    f_equal; by destruct method; vm_compute.
Qed.

(** C9: the frame of a hidden route.  When the router's [doc_ui] or the
    [doc_ui] argument of the route is [False], [_collect_openapi_info]
    changes neither the store of operations nor the router and returns
    the six slots that [parse_parameters] gives; after the decorator
    [paths], [tags], [tag_names], [components_schemas] and [responses]
    are as before, and the route is added all the same, with the
    endpoint made from the handler and the slots. *)
Theorem doc_ui_disabled_frame method operations self rule kw func :
  doc_ui self = false \/ kw_doc_ui kw = false ->
  _collect_openapi_info operations self rule func
    (collected_keywords method kw) method
    = (operations, self, (parse_parameters func None None None false).1.1) /\
  (decorator method operations self rule kw func).1.1 = operations /\
  paths (decorator method operations self rule kw func).1.2 = paths self /\
  tags (decorator method operations self rule kw func).1.2 = tags self /\
  tag_names (decorator method operations self rule kw func).1.2
    = tag_names self /\
  components_schemas (decorator method operations self rule kw func).1.2
    = components_schemas self /\
  responses (decorator method operations self rule kw func).1.2
    = responses self /\
  exists r : @APIRoute Endpoint,
    routes (decorator method operations self rule kw func).1.2
      = routes self ++ [Route_API r] /\
    origin_path r = rule /\
    path r = with_leading_slash rule /\
    init_methods r = Some [method_name method] /\
    endpoint r =
      endpoint_of_slots func (parse_parameters func None None None false).1.1.
Proof.
  intros Hoff.
  assert (doc_ui self && kw_doc_ui (collected_keywords method kw) = false) as H.
  { rewrite collected_keywords_doc_ui.
    destruct Hoff as [-> | ->]; [done | apply andb_false_r]. }
  rewrite decorator_eq. cbv zeta.
  rewrite (_collect_openapi_info_disabled _ _ _ _ _ _ H), _add_route_eq. simpl.
  repeat split. by eexists.
Qed.

(** C5: validation precedes the handler.  The endpoint of the route that
    a decorator adds is the wrapper that [create_endpoint] makes from
    the handler and the six slots returned by [_collect_openapi_info];
    the handler itself is not stored in the route, and the decorator
    returns it as it is. *)
Theorem decorator_stores_wrapper method operations self rule kw func :
  (decorator method operations self rule kw func).2 = func /\
  exists (r : @APIRoute Endpoint) (header cookie path_ query form body : option Model),
    routes (decorator method operations self rule kw func).1.2
      = routes self ++ [Route_API r] /\
    (_collect_openapi_info operations self rule func
       (collected_keywords method kw) method).2
      = (header, cookie, path_, query, form, body) /\
    endpoint r = create_endpoint func header cookie path_ query form body.
Proof.
  rewrite decorator_eq. cbv zeta. split; [done|].
  rewrite _add_route_eq. simpl. rewrite _collect_openapi_info_routes.
  destruct (_collect_openapi_info operations self rule func
              (collected_keywords method kw) method).2
    as [[[[[h c] p] q] f] b].
  eexists. exists h, c, p, q, f, b. by repeat split.
Qed.

(** *** The operation of a documented route *)

Lemma collected_keywords_security method kw :
  kw_security (collected_keywords method kw) = kw_security kw.
Proof. by destruct method. Qed.

Lemma collected_keywords_servers method kw :
  kw_servers (collected_keywords method kw) = kw_servers kw.
Proof. by destruct method. Qed.

Lemma collected_keywords_tags method kw :
  kw_tags (collected_keywords method kw) = kw_tags kw.
Proof. by destruct method. Qed.

Lemma collected_keywords_responses method kw :
  kw_responses (collected_keywords method kw) = kw_responses kw.
Proof. by destruct method. Qed.

(** The operation that [_collect_openapi_info] puts in the store, as far
    as the router decides it. *)
Lemma _collect_openapi_info_operation (F : UtilsFrame)
    operations self rule func kw method :
  doc_ui self = true -> kw_doc_ui kw = true ->
  exists operation : @Operation Any,
    (_collect_openapi_info operations self rule func kw method).1.1
      = operations ++ [operation] /\
    op_security operation = _security self (kw_security kw) /\
    op_servers operation
      = match kw_servers kw with
        | Some (s :: l) => Some (s :: l)
        | _ => None
        end.
Proof.
  intros Hd Hk. rewrite (_collect_openapi_info_enabled _ _ _ _ _ _ Hd Hk).
  cbv zeta. cbn [fst snd]. eexists. split; [reflexivity|].
  set (o := assigned_operation self rule func kw method).
  set (t := parse_and_store_tags _ _ _ o).
  set (r := get_responses _ _ t.2).
  set (p := parse_parameters _ _ _ _ _).
  assert (op_security (default r.2 p.2) = op_security o /\
          op_servers (default r.2 p.2) = op_servers o) as [-> ->].
  { destruct (parse_and_store_tags_frame F
                (or_nil (kw_tags kw) ++ api_tags self) (tags self)
                (tag_names self) o) as [Hs0 Hv0].
    destruct (get_responses_frame F
                (combine_responses self (kw_responses kw))
                (components_schemas self) t.2) as (_ & Hs1 & Hv1).
    fold t in Hs0, Hv0. fold r in Hs1, Hv1.
    destruct p.2 as [o2|] eqn:Ep; simpl.
    - destruct (parse_parameters_frame F func (Some r.1) r.2
                  (converted_request_body kw) true o2 Ep) as (_ & Hs2 & Hv2).
      by rewrite Hs2, Hv2, Hs1, Hv1.
    - by rewrite Hs1, Hv1. }
  unfold o, assigned_operation. clear o t r p.
  destruct (get_operation_unset F func (kw_summary kw) (kw_description kw)
              (kw_openapi_extensions kw)) as [Hsec Hsrv].
  destruct (kw_servers kw) as [[|s l]|];
    destruct (_security self (kw_security kw));
    destruct (kw_deprecated kw);
    destruct (external_docs_true (kw_external_docs kw)); simpl; auto.
Qed.

(** The path item of the route refers to the new operation by its
    position in the store. *)
Lemma _collect_openapi_info_paths operations self rule func kw method :
  doc_ui self = true -> kw_doc_ui kw = true ->
  paths (_collect_openapi_info operations self rule func kw method).1.2
  = parse_method (parse_rule rule (url_prefix self)) method (paths self)
      (length operations).
Proof.
  intros Hd Hk. by rewrite (_collect_openapi_info_enabled _ _ _ _ _ _ Hd Hk).
Qed.

Lemma decorator_paths method operations self rule kw func :
  paths (decorator method operations self rule kw func).1.2
  = paths (_collect_openapi_info operations self rule func
             (collected_keywords method kw) method).1.2.
Proof. rewrite decorator_eq. cbv zeta. by rewrite _add_route_eq. Qed.

Lemma decorator_operations method operations self rule kw func :
  (decorator method operations self rule kw func).1.1
  = (_collect_openapi_info operations self rule func
       (collected_keywords method kw) method).1.1.
Proof. by rewrite decorator_eq. Qed.

(** C2: security merging.  For a route registered with the documentation
    on, one operation is put in the store, and [parse_method] binds it,
    by its position, to the path and the method of the route; it has as
    [security] the security list of the route followed by that of the
    router; when both are empty the field stays [None], it is not the
    empty list. *)
Theorem decorator_operation_security (F : UtilsFrame)
    method operations self rule kw func :
  doc_ui self = true -> kw_doc_ui kw = true ->
  exists operation : @Operation Any,
    (decorator method operations self rule kw func).1.1
      = operations ++ [operation] /\
    paths (decorator method operations self rule kw func).1.2
      = parse_method (parse_rule rule (url_prefix self)) method (paths self)
          (length operations) /\
    (or_nil (kw_security kw) ++ security self = [] ->
     op_security operation = None) /\
    (or_nil (kw_security kw) ++ security self <> [] ->
     op_security operation = Some (or_nil (kw_security kw) ++ security self)).
Proof.
  intros Hd Hk.
  destruct (_collect_openapi_info_operation F operations self rule func
              (collected_keywords method kw) method Hd)
    as (operation & Hstore & Hsec & _).
  { by rewrite collected_keywords_doc_ui. }
  exists operation. rewrite decorator_operations. split; [done|].
  split.
  { rewrite decorator_paths. apply _collect_openapi_info_paths; [done|].
    by rewrite collected_keywords_doc_ui. }
  rewrite Hsec, collected_keywords_security. unfold _security.
  destruct (or_nil (kw_security kw) ++ security self); by split.
Qed.

(** C7, as amended: for a route registered with the documentation on,
    the operation put in the store, which [parse_method] binds to the
    path and the method of the route, has as [servers] the servers list
    of the route when one is given and is not empty, and [None]
    otherwise, whatever the router is: a router has no servers of its
    own and nothing is merged. *)
Theorem decorator_operation_servers (F : UtilsFrame)
    method operations self rule kw func :
  doc_ui self = true -> kw_doc_ui kw = true ->
  exists operation : @Operation Any,
    (decorator method operations self rule kw func).1.1
      = operations ++ [operation] /\
    paths (decorator method operations self rule kw func).1.2
      = parse_method (parse_rule rule (url_prefix self)) method (paths self)
          (length operations) /\
    op_servers operation
      = match kw_servers kw with
        | Some (s :: l) => Some (s :: l)
        | _ => None
        end.
Proof.
  intros Hd Hk.
  destruct (_collect_openapi_info_operation F operations self rule func
              (collected_keywords method kw) method Hd)
    as (operation & Hstore & _ & Hsrv).
  { by rewrite collected_keywords_doc_ui. }
  exists operation. rewrite decorator_operations. split; [done|].
  split.
  { rewrite decorator_paths. apply _collect_openapi_info_paths; [done|].
    by rewrite collected_keywords_doc_ui. }
  by rewrite Hsrv, collected_keywords_servers.
Qed.

(** *** Tags *)



(** What the loop over the tags adds: tags of the new list, in their
    order, each with a name that was not yet there. *)
Lemma foldl_store_tag_added (new : list Tag.t) (ts : list Tag.t)
    (ns : list string) :
  exists added : list Tag.t,
    (foldl store_tag (ts, ns) new).1 = ts ++ added /\
    (foldl store_tag (ts, ns) new).2 = ns ++ (Tag.name <$> added) /\
    added `sublist_of` new /\
    (forall tag, tag ∈ added -> Tag.name tag ∉ ns) /\
    NoDup (Tag.name <$> added) /\
    (forall tag, tag ∈ new -> Tag.name tag ∈ (foldl store_tag (ts, ns) new).2).
Proof.
  revert ts ns. induction new as [|tag new IH]; intros ts ns.
  - exists []. simpl. rewrite !app_nil_r. repeat split; try done.
    + intros tag H. by apply elem_of_nil in H.
    + apply NoDup_nil_2.
    + intros tag H. by apply elem_of_nil in H.
  - simpl. destruct (decide (Tag.name tag ∈ ns)) as [Hin|Hin].
    + assert (store_tag (ts, ns) tag = (ts, ns)) as ->.
      { unfold store_tag. simpl. by rewrite bool_decide_eq_true_2. }
      destruct (IH ts ns) as (added & H1 & H2 & H3 & H4 & H5 & H6).
      exists added. repeat split; try done.
      * by apply sublist_cons.
      * intros t Ht. apply elem_of_cons in Ht as [-> | Ht]; [|by apply H6].
        rewrite H2. apply elem_of_app. by left.
    + assert (store_tag (ts, ns) tag = (ts ++ [tag], ns ++ [Tag.name tag])) as ->.
      { unfold store_tag. simpl. by rewrite bool_decide_eq_false_2. }
      destruct (IH (ts ++ [tag]) (ns ++ [Tag.name tag]))
        as (added & H1 & H2 & H3 & H4 & H5 & H6).
      exists (tag :: added). rewrite H1, H2, <- !app_assoc. simpl.
      repeat split; try done.
      * by apply sublist_skip.
      * intros t Ht. apply elem_of_cons in Ht as [-> | Ht]; [done|].
        intros Hn. apply (H4 t Ht). apply elem_of_app. by left.
      * apply NoDup_cons. split; [|done].
        intros Hn. apply list_elem_of_fmap in Hn as (t & Heq & Ht).
        apply (H4 t Ht). rewrite <- Heq. apply elem_of_app. right.
        by apply list_elem_of_singleton.
      * intros t Ht. apply elem_of_cons in Ht as [-> | Ht].
        -- apply elem_of_app. right. by left.
        -- specialize (H6 t Ht). rewrite H2, <- app_assoc in H6. exact H6.
Qed.

Lemma assigned_operation_collected self rule func kw method :
  assigned_operation self rule func (collected_keywords method kw) method
  = assigned_operation self rule func kw method.
Proof. by destruct method. Qed.





End Decorators.

(** *** Responses *)

Lemma foldl_insert_response_lookup (l : @ResponseDict Model Any)
    (acc : gmap string (@ResponseDictValue Model Any)) (s : string) :
  foldl (fun acc kv => <[status_key_to_string kv.1 := kv.2]> acc) acc l !! s
  = match response_for s l with
    | Some v => Some v
    | None => acc !! s
    end.
Proof.
  revert acc. induction l as [|kv l IH]; intros acc; [done|].
  simpl. rewrite IH. destruct (response_for s l); [done|].
  rewrite lookup_insert. by destruct (decide (status_key_to_string kv.1 = s)).
Qed.

Lemma convert_responses_key_to_string_lookup (l : @ResponseDict Model Any)
    (s : string) :
  convert_responses_key_to_string l !! s = response_for s l.
Proof.
  unfold convert_responses_key_to_string.
  rewrite foldl_insert_response_lookup. by destruct (response_for s l).
Qed.

(** C3: responses merging.  Let the responses of the router be those
    it was built with, [router_responses], and a route be registered
    with the documentation on.
    [get_responses] is called once, with the combined responses, the
    component schemas of the router and the operation as
    [parse_and_store_tags] leaves it; what it returns goes to
    [parse_parameters], and the operation put in the store and the
    component schemas of the router are what these two calls leave.
    In the combined responses a status has the value that the route
    gives it, and otherwise that of the router; the status of an item
    is its key written as a string, so that [422], [HTTPStatus(422)]
    and ["422"] are one status.  The constructor keeps the responses of
    a router with their keys written as strings. *)
Theorem responses_merging {U : @Utils Model Any Endpoint}
    (router_responses : option (@ResponseDict Model Any))
    method operations self rule kw func :
  responses self
    = convert_responses_key_to_string (default [] router_responses) ->
  doc_ui self = true -> kw_doc_ui kw = true ->
  let merged := combine_responses self (kw_responses kw) in
  let t :=
    parse_and_store_tags (or_nil (kw_tags kw) ++ api_tags self) (tags self)
      (tag_names self) (assigned_operation self rule func kw method) in
  let r := get_responses merged (components_schemas self) t.2 in
  let p :=
    parse_parameters func (Some r.1) (Some r.2)
      (converted_request_body (collected_keywords method kw)) true in
  (decorator method operations self rule kw func).1.1
    = operations ++ [default r.2 p.2] /\
  components_schemas (decorator method operations self rule kw func).1.2
    = default r.1 p.1.2 /\
  (forall s : string,
      merged !! s
      = match response_for s (default [] (kw_responses kw)) with
        | Some v => Some v
        | None => response_for s (default [] router_responses)
        end) /\
  (forall (k : StatusKey) (v : @ResponseDictValue Model Any)
          (l : @ResponseDict Model Any),
      response_for (status_key_to_string k) (l ++ [(k, v)]) = Some v) /\
  (forall url_prefix_ tags_ security_ callback doc_ui_
          (routes0 : list (@BaseRoute Any Endpoint)),
      responses
        (__init__ url_prefix_ tags_ security_ callback router_responses
           doc_ui_ routes0)
      = convert_responses_key_to_string (default [] router_responses)) /\
  status_key_to_string (KInt 422) = "422" /\
  status_key_to_string (KStatus 422) = "422" /\
  status_key_to_string (KStr "422") = "422".
Proof.
  intros Hresp Hd Hk merged t r p.
  assert (kw_doc_ui (collected_keywords method kw) = true) as Hk'
    by (by rewrite collected_keywords_doc_ui).
  split; [|split; [|split; [|split; [|split]]]].
  - rewrite decorator_eq. cbv zeta. cbn [fst snd].
    rewrite (_collect_openapi_info_enabled _ _ _ _ _ _ Hd Hk').
    cbv zeta. cbn [fst snd].
    by rewrite collected_keywords_tags, collected_keywords_responses,
      assigned_operation_collected.
  - rewrite decorator_eq. cbv zeta. rewrite _add_route_eq.
    cbn [fst snd components_schemas set_routes].
    rewrite (_collect_openapi_info_enabled _ _ _ _ _ _ Hd Hk').
    cbv zeta. cbn [fst snd components_schemas].
    by rewrite collected_keywords_tags, collected_keywords_responses,
      assigned_operation_collected.
  - intros s. unfold merged, combine_responses. rewrite lookup_union.
    rewrite convert_responses_key_to_string_lookup, Hresp.
    rewrite convert_responses_key_to_string_lookup.
    by destruct (response_for s (default [] (kw_responses kw))),
                (response_for s (default [] router_responses)).
  - intros k v l. induction l as [|kv l IH]; simpl.
    + by rewrite decide_True.
    + by rewrite IH.
  - done.
  - by vm_compute.
Qed.

(** ** Further properties of [register_api] *)

Lemma foldl_store_tag_present (new ts : list Tag.t) (ns : list string) :
  (forall tag, tag ∈ new -> Tag.name tag ∈ ns) ->
  foldl store_tag (ts, ns) new = (ts, ns).
Proof.
  induction new as [|tag new IH]; intros Hall; [done|].
  simpl. assert (store_tag (ts, ns) tag = (ts, ns)) as ->.
  { unfold store_tag. simpl. rewrite bool_decide_eq_true_2; [done|].
    apply Hall. by left. }
  apply IH. intros t Ht. apply Hall. by right.
Qed.

(** X6: registering the same router a second time leaves the document
    state ([paths], [components_schemas], [tags], [tag_names]) as it is
    after the first time, but adds every route of [api] once more. *)
Theorem register_api_twice self api :
  paths (register_api (register_api self api) api)
    = paths (register_api self api) /\
  components_schemas (register_api (register_api self api) api)
    = components_schemas (register_api self api) /\
  tags (register_api (register_api self api) api)
    = tags (register_api self api) /\
  tag_names (register_api (register_api self api) api)
    = tag_names (register_api self api) /\
  routes (register_api (register_api self api) api)
    = routes (register_api self api)
      ++ omap (prefixed_route (url_prefix api)) (routes api).
Proof.
  rewrite (register_api_eq (register_api self api) api).
  cbn [paths components_schemas tags tag_names routes].
  rewrite url_prefix_register_api.
  destruct (foldl_store_tag_added (tags api) (tags self) (tag_names self))
    as (added & _ & _ & _ & _ & _ & Hall).
  assert (foldl store_tag
            (tags (register_api self api), tag_names (register_api self api))
            (tags api)
          = (tags (register_api self api), tag_names (register_api self api)))
    as ->.
  { apply foldl_store_tag_present. intros tag Ht.
    rewrite register_api_eq. simpl. by apply Hall. }
  rewrite (register_api_eq self api).
  cbn [paths components_schemas tags tag_names routes fst snd].
  repeat split.
  - by rewrite (assoc_L (∪)), (idemp_L (∪)).
  - by rewrite (assoc_L (∪)), (idemp_L (∪)).
Qed.

(** X7: registering a router that was just built, whatever its prefix,
    tags, security and responses, changes nothing: the settings of a
    router without routes do not reach the router it is registered on. *)
Theorem register_api_fresh self url_prefix_ tags_ security_ callback
    (responses_ : option (@ResponseDict Model Any)) doc_ui_ :
  register_api self
    (__init__ url_prefix_ tags_ security_ callback responses_ doc_ui_ [])
  = self.
Proof.
  rewrite register_api_eq. simpl.
  rewrite kmap_empty, !(left_id_L ∅ (∪)), app_nil_r.
  by destruct self.
Qed.

(** X8: the path items after [register_api].  An item of [self] is kept
    under its key unless the key is the stripped prefix of [self]
    followed by a key of [api]; and every item there is comes from one
    of the two routers: nothing else is added, and an item of [self] is
    lost only by being replaced. *)
Theorem register_api_paths self api (j : string) (item : Any) :
  (paths self !! j = Some item ->
   (forall k, j = rstrip (url_prefix self) "/" +:+ k -> paths api !! k = None) ->
   paths (register_api self api) !! j = Some item) /\
  (paths (register_api self api) !! j = Some item ->
   (exists k, j = rstrip (url_prefix self) "/" +:+ k /\
              paths api !! k = Some item) \/
   paths self !! j = Some item).
Proof.
  rewrite register_api_eq. cbn [paths]. rewrite lookup_union_Some_raw.
  split.
  - intros Hj Hnone. right. split; [|done].
    apply lookup_kmap_None; [apply String.app_inj | exact Hnone].
  - intros [Hv | [_ Hv]]; [left | by right].
    apply lookup_kmap_Some in Hv as (k & -> & Hk); [|apply String.app_inj].
    by exists k.
Qed.

Lemma rstrip_app_char (s chars : string) (c : Ascii.ascii) :
  char_in c chars = true ->
  rstrip (s +:+ String c "") chars = rstrip s chars.
Proof.
  intros Hc. induction s as [|a s IH].
  - change (rstrip (String c "") chars = ""). simpl. by rewrite Hc.
  - change (rstrip (String a (s +:+ String c "")) chars
            = rstrip (String a s) chars).
    simpl. by rewrite IH.
Qed.

(** X9: a trailing slash of the url prefix of [self] makes no
    difference to the path keys: with the prefix [p/] the paths after
    [register_api] are those with the prefix [p]. *)
Theorem register_api_paths_trailing_slash self self' api :
  url_prefix self' = url_prefix self +:+ "/" ->
  paths self' = paths self ->
  paths (register_api self' api) = paths (register_api self api).
Proof.
  intros Hp Hpaths. rewrite !register_api_eq. cbn [paths].
  by rewrite Hp, Hpaths, rstrip_app_char.
Qed.

(** X13: what [register_api] takes over.  One route is added for every
    [APIRoute] and [APIWebSocketRoute] of [api] and none for a route of
    another kind; a route of another kind in the result was one of
    [self]; and an [APIRoute] in the result is one of [self] or is
    included in the schema and stands at the prefix of [api] followed by
    the [origin_path] of a route of [api]. *)
Theorem register_api_taken_over self api :
  length (routes (register_api self api))
    = length (routes self) + length (filter (fun r => taken_over r) (routes api)) /\
  (forall x : Any,
      Route_other x ∈ routes (register_api self api) ->
      Route_other x ∈ routes self) /\
  (forall r : @APIRoute Endpoint,
      Route_API r ∈ routes (register_api self api) ->
      Route_API r ∈ routes self \/
      (include_in_schema r = true /\
       exists r0 : @APIRoute Endpoint,
         Route_API r0 ∈ routes api /\
         origin_path r = url_prefix api +:+ origin_path r0 /\
         endpoint r = endpoint r0)).
Proof.
  rewrite routes_register_api. split; [|split].
  - rewrite length_app. f_equal.
    induction (routes api) as [|route l IH]; [done|].
    change (route :: l) with ([route] ++ l).
    rewrite omap_app, filter_app, !length_app, IH. f_equal.
    by destruct route.
  - intros x Hx. apply elem_of_app in Hx as [Hx|Hx]; [done|].
    apply list_elem_of_omap in Hx as (route & _ & Hr).
    by destruct route.
  - intros r Hr. apply elem_of_app in Hr as [Hr|Hr]; [by left|]. right.
    apply list_elem_of_omap in Hr as (route & Hin & Hr).
    destruct route as [r0|r0|x]; simpl in Hr; try discriminate.
    injection Hr as <-. simpl. split; [done|]. by exists r0.
Qed.

(** ** Further properties of the decorators *)

Section MoreDecorators.

Context {U : @Utils Model Any Endpoint}.

Implicit Types func : @FunctionType Any.
Implicit Types kw : @Keywords Model Any.
Implicit Types operations : list (@Operation Any).

(** X1: the [websocket] decorator adds one [APIWebSocketRoute] at the
    end of the routes, at [rule] with a leading slash put before it when
    it has none; the endpoint is the handler itself, not a wrapper; the
    document state of the router stays as it is and the handler is
    returned. *)
Theorem websocket_adds_route self rule name_ func :
  (websocket self rule name_ func).2 = func /\
  routes (websocket self rule name_ func).1
    = routes self
      ++ [Route_WebSocket
            {| ws_path := (if startswith rule "/" then rule else "/" +:+ rule);
               ws_origin_path := rule; ws_endpoint := func;
               ws_init_name := name_ |}] /\
  paths (websocket self rule name_ func).1 = paths self /\
  components_schemas (websocket self rule name_ func).1
    = components_schemas self /\
  tags (websocket self rule name_ func).1 = tags self /\
  tag_names (websocket self rule name_ func).1 = tag_names self.
Proof.
  unfold websocket. cbn [fst snd]. rewrite _add_websocket_route_eq.
  by repeat split.
Qed.

Lemma startswith_with_leading_slash (p : string) :
  startswith (with_leading_slash p) "/" = true.
Proof.
  unfold with_leading_slash. destruct (startswith p "/") eqn:E; [exact E|].
  unfold startswith. lazy beta iota zeta delta [String.append String.prefix].
  match goal with
  | |- context [Ascii.ascii_dec ?a ?b] =>
      destruct (Ascii.ascii_dec a b) as [_|Hne]
  end; [by destruct p | by destruct Hne].
Qed.

Lemma prefixed_route_well_formed pre (route route' : @BaseRoute Any Endpoint) :
  prefixed_route pre route = Some route' -> route_well_formed route'.
Proof.
  destruct route; simpl; intros H; try discriminate;
    by injection H as <-.
Qed.

(** X2: every route has a path that starts with a slash.  When the
    routes that a router starts with have as path their [origin_path]
    with a leading slash put before it when it has none, so have all its
    routes after any calls of the decorators, of [websocket] and of
    [register_api]; the path of each [APIRoute] and [APIWebSocketRoute]
    then starts with a slash. *)
Theorem evolves_routes_well_formed (r0 r : @APIRouter Model Any Endpoint) :
  evolves r0 r ->
  Forall route_well_formed (routes r0) ->
  Forall route_well_formed (routes r) /\
  (forall x : @APIRoute Endpoint,
      Route_API x ∈ routes r -> startswith (path x) "/" = true) /\
  (forall x : @APIWebSocketRoute Any,
      Route_WebSocket x ∈ routes r -> startswith (ws_path x) "/" = true).
Proof.
  intros Hev H0.
  assert (Forall route_well_formed (routes r)) as Hall.
  { induction Hev as [ | method operations self rule kw func _ IH
                     | self rule name_ func _ IH | self api _ IH ].
    - exact H0.
    - rewrite decorator_eq. cbv zeta. rewrite _add_route_eq. simpl.
      rewrite _collect_openapi_info_routes.
      apply Forall_app. split; [exact IH|]. by apply Forall_singleton.
    - simpl. rewrite _add_websocket_route_eq. simpl.
      apply Forall_app. split; [exact IH|]. by apply Forall_singleton.
    - rewrite routes_register_api. apply Forall_app. split; [exact IH|].
      apply Forall_forall. intros route' Hin.
      apply list_elem_of_omap in Hin as (route & _ & Hr).
      exact (prefixed_route_well_formed _ route route' Hr). }
  split; [exact Hall|].
  rewrite Forall_forall in Hall. split; intros x Hx.
  - specialize (Hall _ Hx). simpl in Hall. rewrite Hall.
    apply startswith_with_leading_slash.
  - specialize (Hall _ Hx). simpl in Hall. rewrite Hall.
    apply startswith_with_leading_slash.
Qed.

Lemma _collect_openapi_info_settings operations self rule func kw method :
  let r := (_collect_openapi_info operations self rule func kw method).1.2 in
  url_prefix r = url_prefix self /\ api_tags r = api_tags self /\
  security r = security self /\ responses r = responses self /\
  doc_ui r = doc_ui self /\
  operation_id_callback r = operation_id_callback self.
Proof.
  unfold _collect_openapi_info.
  destruct (doc_ui self && kw_doc_ui kw); [|done].
  destruct (parse_and_store_tags _ _ _ _) as [[ts1 ns1] o0].
  destruct (get_responses _ _ _) as [cs1 o1].
  by destruct (parse_parameters _ _ _ _ _) as [[ps cs2] o2].
Qed.

(** X10: the settings of a router are fixed when it is built.  Its url
    prefix, its own tags, security and responses, its [doc_ui] switch
    and its callback for operation ids are the same after any calls of
    the decorators, of [websocket] and of [register_api]; in particular
    the settings of a registered router never replace them. *)
Theorem evolves_settings (r0 r : @APIRouter Model Any Endpoint) :
  evolves r0 r ->
  url_prefix r = url_prefix r0 /\ api_tags r = api_tags r0 /\
  security r = security r0 /\ responses r = responses r0 /\
  doc_ui r = doc_ui r0 /\
  operation_id_callback r = operation_id_callback r0.
Proof.
  induction 1 as [ | method operations self rule kw func _ IH
                 | self rule name_ func _ IH | self api _ IH ].
  - done.
  - rewrite decorator_eq. cbv zeta. rewrite _add_route_eq. simpl.
    destruct (_collect_openapi_info_settings operations self rule func
                (collected_keywords method kw) method)
      as (-> & -> & -> & -> & -> & ->).
    exact IH.
  - simpl. rewrite _add_websocket_route_eq. exact IH.
  - rewrite register_api_eq. exact IH.
Qed.

(** X11: routes are only added, at the end.  The routes of a router
    stay, in their order, at the beginning of its routes after any
    calls of the decorators, of [websocket] and of [register_api]. *)
Theorem evolves_routes_prefix (r0 r : @APIRouter Model Any Endpoint) :
  evolves r0 r -> routes r0 `prefix_of` routes r.
Proof.
  induction 1 as [ | method operations self rule kw func _ IH
                 | self rule name_ func _ IH | self api _ IH ].
  - done.
  - rewrite decorator_eq. cbv zeta. rewrite _add_route_eq. simpl.
    rewrite _collect_openapi_info_routes.
    by apply prefix_app_r.
  - simpl. rewrite _add_websocket_route_eq. simpl. by apply prefix_app_r.
  - rewrite routes_register_api. by apply prefix_app_r.
Qed.

(** *** The fields that the router assigns *)

Lemma collected_keywords_assigned method kw :
  kw_external_docs (collected_keywords method kw) = kw_external_docs kw /\
  kw_operation_id (collected_keywords method kw) = kw_operation_id kw /\
  kw_deprecated (collected_keywords method kw) = kw_deprecated kw /\
  kw_summary (collected_keywords method kw) = kw_summary kw /\
  kw_description (collected_keywords method kw) = kw_description kw /\
  kw_openapi_extensions (collected_keywords method kw)
    = kw_openapi_extensions kw.
Proof. by destruct method. Qed.

(** The operation that [_collect_openapi_info] puts in the store, for
    the three fields that only the router assigns. *)
Lemma _collect_openapi_info_assigned (F : UtilsFrameAssigned)
    operations self rule func kw method :
  doc_ui self = true -> kw_doc_ui kw = true ->
  exists operation : @Operation Any,
    (_collect_openapi_info operations self rule func kw method).1.1
      = operations ++ [operation] /\
    op_externalDocs operation
      = (if external_docs_true (kw_external_docs kw) then kw_external_docs kw
         else op_externalDocs
                (get_operation func (kw_summary kw) (kw_description kw)
                   (kw_openapi_extensions kw))) /\
    op_operationId operation
      = Some (operation_id_or_callback self (kw_operation_id kw) func rule method) /\
    op_deprecated operation
      = match kw_deprecated kw with
        | Some d => Some d
        | None =>
            op_deprecated
              (get_operation func (kw_summary kw) (kw_description kw)
                 (kw_openapi_extensions kw))
        end.
Proof.
  intros Hd Hk. rewrite (_collect_openapi_info_enabled _ _ _ _ _ _ Hd Hk).
  cbv zeta. cbn [fst snd]. eexists. split; [reflexivity|].
  set (o := assigned_operation self rule func kw method).
  set (t := parse_and_store_tags _ _ _ o).
  set (r := get_responses _ _ t.2).
  set (p := parse_parameters _ _ _ _ _).
  assert (op_externalDocs (default r.2 p.2) = op_externalDocs o /\
          op_operationId (default r.2 p.2) = op_operationId o /\
          op_deprecated (default r.2 p.2) = op_deprecated o) as (-> & -> & ->).
  { destruct (parse_and_store_tags_assigned F
                (or_nil (kw_tags kw) ++ api_tags self) (tags self)
                (tag_names self) o) as (He0 & Hi0 & Hd0).
    destruct (get_responses_assigned F
                (combine_responses self (kw_responses kw))
                (components_schemas self) t.2) as (He1 & Hi1 & Hd1).
    fold t in He0, Hi0, Hd0. fold r in He1, Hi1, Hd1.
    destruct p.2 as [o2|] eqn:Ep; simpl.
    - destruct (parse_parameters_assigned F func (Some r.1) r.2
                  (converted_request_body kw) true o2 Ep) as (He2 & Hi2 & Hd2).
      by rewrite He2, Hi2, Hd2, He1, Hi1, Hd1.
    - by rewrite He1, Hi1, Hd1. }
  unfold o, assigned_operation. clear o t r p.
  destruct (kw_servers kw) as [[|s l]|];
    destruct (_security self (kw_security kw));
    destruct (kw_deprecated kw);
    destruct (external_docs_true (kw_external_docs kw)); simpl; auto.
Qed.

(** X3: the operation id of a documented route.  An [operation_id] that
    is given and is not the empty string is the id of the operation;
    when none is given, or the empty string, the id is what the callback
    of the router makes of the url prefix, the name of the handler, the
    rule and the method. *)
Theorem decorator_operation_id (F : UtilsFrameAssigned)
    method operations self rule kw func :
  doc_ui self = true -> kw_doc_ui kw = true ->
  exists operation : @Operation Any,
    (decorator method operations self rule kw func).1.1
      = operations ++ [operation] /\
    (forall id, kw_operation_id kw = Some id -> id <> "" ->
                op_operationId operation = Some id) /\
    (kw_operation_id kw = None \/ kw_operation_id kw = Some "" ->
     op_operationId operation
       = Some (operation_id_callback self (url_prefix self) (__name__ func)
                 rule method)).
Proof.
  intros Hd Hk.
  destruct (_collect_openapi_info_assigned F operations self rule func
              (collected_keywords method kw) method Hd)
    as (operation & Hstore & _ & Hid & _).
  { by rewrite collected_keywords_doc_ui. }
  exists operation. rewrite decorator_operations. split; [done|].
  destruct (collected_keywords_assigned method kw) as (_ & Ei & _).
  rewrite Hid, Ei. unfold operation_id_or_callback. split.
  - intros id -> Hne. by destruct id.
  - by intros [-> | ->].
Qed.

(** X4: [deprecated] of a documented route.  A value that is given,
    [True] or [False], is the [deprecated] of the operation; when none
    is given the field is as [get_operation] made it. *)
Theorem decorator_operation_deprecated (F : UtilsFrameAssigned)
    method operations self rule kw func :
  doc_ui self = true -> kw_doc_ui kw = true ->
  exists operation : @Operation Any,
    (decorator method operations self rule kw func).1.1
      = operations ++ [operation] /\
    (forall d : bool, kw_deprecated kw = Some d ->
                      op_deprecated operation = Some d) /\
    (kw_deprecated kw = None ->
     op_deprecated operation
       = op_deprecated
           (get_operation func (kw_summary kw) (kw_description kw)
              (kw_openapi_extensions kw))).
Proof.
  intros Hd Hk.
  destruct (_collect_openapi_info_assigned F operations self rule func
              (collected_keywords method kw) method Hd)
    as (operation & Hstore & _ & _ & Hdep).
  { by rewrite collected_keywords_doc_ui. }
  exists operation. rewrite decorator_operations. split; [done|].
  destruct (collected_keywords_assigned method kw)
    as (_ & _ & Edep & Es & Edesc & Eext).
  rewrite Hdep, Edep, Es, Edesc, Eext. split.
  - by intros d ->.
  - by intros ->.
Qed.

(** X5: [externalDocs] of a documented route.  External docs that are
    given and are not the empty dict are those of the operation; when
    none are given, or the empty dict, the field is as [get_operation]
    made it. *)
Theorem decorator_operation_external_docs (F : UtilsFrameAssigned)
    method operations self rule kw func :
  doc_ui self = true -> kw_doc_ui kw = true ->
  exists operation : @Operation Any,
    (decorator method operations self rule kw func).1.1
      = operations ++ [operation] /\
    (forall e, kw_external_docs kw = Some e -> e <> ED_dict [] ->
               op_externalDocs operation = Some e) /\
    (kw_external_docs kw = None \/ kw_external_docs kw = Some (ED_dict []) ->
     op_externalDocs operation
       = op_externalDocs
           (get_operation func (kw_summary kw) (kw_description kw)
              (kw_openapi_extensions kw))).
Proof.
  intros Hd Hk.
  destruct (_collect_openapi_info_assigned F operations self rule func
              (collected_keywords method kw) method Hd)
    as (operation & Hstore & Hext & _ & _).
  { by rewrite collected_keywords_doc_ui. }
  exists operation. rewrite decorator_operations. split; [done|].
  destruct (collected_keywords_assigned method kw)
    as (Ee & _ & _ & Es & Edesc & Eext).
  rewrite Hext, Ee, Es, Edesc, Eext. split.
  - intros e -> Hne. by destruct e as [x|[|y d]].
  - by intros [-> | ->].
Qed.

(** *** Empty keywords *)

Lemma _collect_openapi_info_omit_empty operations self rule func kw method :
  _collect_openapi_info operations self rule func (omit_empty kw) method
  = _collect_openapi_info operations self rule func kw method.
Proof.
  unfold _collect_openapi_info, combine_responses, _security,
    operation_id_or_callback, external_docs_true.
  cbn [omit_empty kw_tags kw_summary kw_description kw_external_docs
       kw_operation_id kw_deprecated kw_security kw_servers
       kw_openapi_extensions kw_request_body kw_responses kw_doc_ui].
  destruct (doc_ui self && kw_doc_ui kw); [|done].
  destruct (kw_tags kw) as [[|t ts]|], (kw_security kw) as [[|s ss]|],
    (kw_servers kw) as [[|v vs]|], (kw_responses kw) as [[|r rs]|],
    (kw_external_docs kw) as [[e|[|d ds]]|],
    (kw_operation_id kw) as [[|a i]|]; reflexivity.
Qed.

(** X12: a keyword given as an empty list ([tags], [security],
    [servers], [responses]), [external_docs] given as the empty dict
    and [operation_id] given as the empty string count as not given:
    the decorator does the same with them as without them. *)
Theorem decorator_omit_empty method operations self rule kw func :
  decorator method operations self rule (omit_empty kw) func
  = decorator method operations self rule kw func.
Proof.
  rewrite !decorator_eq. cbv zeta.
  assert (_collect_openapi_info operations self rule func
            (collected_keywords method (omit_empty kw)) method
          = _collect_openapi_info operations self rule func
              (collected_keywords method kw) method) as ->; [|done].
  destruct method; cbn [collected_keywords];
    try apply _collect_openapi_info_omit_empty.
  exact (_collect_openapi_info_omit_empty operations self rule func
           (without_request_body kw) GET).
Qed.

End MoreDecorators.

End RouterFacts.

(** C1 fails as stated: parent and child both hold a schema called
    [Book]; after the registration only the child's is left. *)
Lemma register_api_schema_replaced :
  components_schemas Sample.parent_with_book !! "Book"
    = Some "schema of the parent" /\
  components_schemas Sample.child_with_book !! "Book"
    = Some "schema of the child" /\
  map_to_list
    (components_schemas
       (register_api Sample.parent_with_book Sample.child_with_book))
    = [("Book", "schema of the child")].
Proof. vm_compute. auto. Qed.

(** ** The properties on concrete routers *)

Lemma sample_utils_frame : UtilsFrame (U := Sample.utils).
Proof.
  split.
  - intros new_tags old_tags old_tag_names o. simpl. unfold Sample.store_tags.
    destruct (foldl store_tag (old_tags, old_tag_names) new_tags).
    split; reflexivity.
  - intros func summary description extensions. split; reflexivity.
  - intros rs cs o. repeat split; reflexivity.
  - intros func cs o rb d o' H. simpl in H. injection H as <-.
    repeat split; reflexivity.
Defined.

(** C2 on the router [Sample.api]: the security of the route comes
    first, that of the router after it. *)
Lemma decorator_operation_security_witness :
  doc_ui Sample.api = true /\
  kw_doc_ui Sample.book_keywords = true /\
  exists operation : @Operation string,
    (decorator (U := Sample.utils) POST [] Sample.api "/book2"
       Sample.book_keywords Sample.get_book).1.1 = [] ++ [operation] /\
    op_security operation = Some [Sample.oauth; Sample.jwt].
Proof.
  split; [reflexivity|]. split; [reflexivity|].
  destruct (decorator_operation_security sample_utils_frame POST []
              Sample.api "/book2" Sample.book_keywords Sample.get_book
              eq_refl eq_refl) as (operation & Hstore & _ & _ & Hsec).
  exists operation. split; [exact Hstore|].
  apply Hsec. discriminate.
Defined.

(** C3 on the router [Sample.api]: the route gives [422] as a number,
    the router as a string; the value of the route is kept, and the
    [404] of the router stays.  The sample [get_responses] adds the
    schema of every model it is given: the one of the route is there,
    the one of the router is not. *)
Lemma responses_merging_witness :
  responses Sample.api
    = convert_responses_key_to_string
        (default []
           (Some [(KStr "422", RModel "ValidationErrorModel");
                  (KStatus 404, RNone)])) /\
  doc_ui Sample.api = true /\
  kw_doc_ui Sample.book_keywords = true /\
  combine_responses Sample.api (kw_responses Sample.book_keywords) !! "422"
    = Some (RModel "ErrorModel") /\
  combine_responses Sample.api (kw_responses Sample.book_keywords) !! "404"
    = Some RNone /\
  map_to_list
    (components_schemas
       (decorator (U := Sample.utils) POST [] Sample.api "/book2"
          Sample.book_keywords Sample.get_book).1.2)
    = [("ErrorModel", "schema of ErrorModel")].
Proof.
  destruct (responses_merging (U := Sample.utils)
              (Some [(KStr "422", RModel "ValidationErrorModel");
                     (KStatus 404, RNone)])
              POST [] Sample.api "/book2" Sample.book_keywords Sample.get_book
              eq_refl eq_refl eq_refl) as (_ & Hschemas & Hlookup & _).
  split; [reflexivity|]. split; [reflexivity|]. split; [reflexivity|].
  split; [etrans; [apply Hlookup | reflexivity]|].
  split; [etrans; [apply Hlookup | reflexivity]|].
  rewrite Hschemas. vm_compute. reflexivity.
Defined.



(** C7, as amended, on [Sample.api]: the servers of the operation are
    those of the route. *)
Lemma decorator_operation_servers_witness :
  doc_ui Sample.api = true /\
  kw_doc_ui Sample.book_keywords = true /\
  exists operation : @Operation string,
    (decorator (U := Sample.utils) POST [] Sample.api "/book2"
       Sample.book_keywords Sample.get_book).1.1 = [] ++ [operation] /\
    op_servers operation = Some ["https://www.openapis.org/"].
Proof.
  split; [reflexivity|]. split; [reflexivity|].
  destruct (decorator_operation_servers sample_utils_frame POST []
              Sample.api "/book2" Sample.book_keywords Sample.get_book
              eq_refl eq_refl) as (operation & Hstore & _ & Hservers).
  exists operation. split; [exact Hstore | exact Hservers].
Defined.

(** C7 fails as stated: a router has no servers to merge.  The same
    route registered on [Sample.api], which carries every piece of
    metadata a router can have, and on the bare [Sample.plain] gets the
    servers of the route and nothing else; a route without servers gets
    none on either router. *)
Lemma servers_of_the_route_only :
  op_servers <$>
    (decorator (U := Sample.utils) POST [] Sample.api "/book2"
       Sample.book_keywords Sample.get_book).1.1
    = [Some ["https://www.openapis.org/"]] /\
  op_servers <$>
    (decorator (U := Sample.utils) POST [] Sample.plain "/book2"
       Sample.book_keywords Sample.get_book).1.1
    = [Some ["https://www.openapis.org/"]] /\
  op_servers <$>
    (decorator (U := Sample.utils) POST [] Sample.api "/book2"
       Sample.no_keywords Sample.get_book).1.1
    = [None] /\
  op_servers <$>
    (decorator (U := Sample.utils) POST [] Sample.plain "/book2"
       Sample.no_keywords Sample.get_book).1.1
    = [None].
Proof. vm_compute. auto. Qed.

(** C9 on [Sample.api] and a hidden route, as [get_book1] of
    [tests/test_openapi.py]: the document state is as before and the
    route is there. *)
Lemma doc_ui_disabled_frame_witness :
  (doc_ui Sample.api = false \/ kw_doc_ui Sample.hidden_keywords = false) /\
  (decorator (U := Sample.utils) GET [] Sample.api "/book1"
     Sample.hidden_keywords Sample.get_book).1.1 = [] /\
  paths (decorator (U := Sample.utils) GET [] Sample.api "/book1"
           Sample.hidden_keywords Sample.get_book).1.2 = paths Sample.api /\
  exists r : @APIRoute (string * Sample.Slots),
    routes (decorator (U := Sample.utils) GET [] Sample.api "/book1"
              Sample.hidden_keywords Sample.get_book).1.2
      = routes Sample.api ++ [Route_API r] /\
    origin_path r = "/book1" /\
    endpoint r
      = ("get_book", (None, None, Some "BookPath", Some "BookQuery", None, None)).
Proof.
  destruct (doc_ui_disabled_frame (U := Sample.utils) GET [] Sample.api
              "/book1" Sample.hidden_keywords Sample.get_book
              (or_intror eq_refl))
    as (_ & Hstore & Hpaths & _ & _ & _ & _ & r & Hroutes & Horigin & _ & _ & Hend).
  split; [right; reflexivity|]. split; [exact Hstore|]. split; [exact Hpaths|].
  exists r. split; [exact Hroutes|]. split; [exact Horigin | exact Hend].
Defined.

(** C8 fails as stated for [get]: the route that [get] registers on
    [Sample.plain] has two methods, [GET] and [HEAD], and that is
    another set than the one of [GET] alone; the route that [post]
    registers has its one method. *)
Lemma get_route_serves_head :
  omap Sample.served_methods
    (routes (decorator (U := Sample.utils) GET [] Sample.plain "/book"
               Sample.no_keywords Sample.get_book).1.2)
    = [("get_book", Some {["GET"; "HEAD"]})] /\
  bool_decide (({["GET"; "HEAD"]} : gset string) = {["GET"]}) = false /\
  omap Sample.served_methods
    (routes (decorator (U := Sample.utils) POST [] Sample.plain "/book"
               Sample.no_keywords Sample.get_book).1.2)
    = [("get_book", Some {["POST"]})].
Proof. by vm_compute. Qed.

(** ** Runs of the embedding *)

Example rstrip_trailing_slashes :
  rstrip "/api/" "/" = "/api" /\ rstrip "/a//b//" "/" = "/a//b" /\
  rstrip "//" "/" = "" /\ rstrip "/api" "/" = "/api".
Proof. by vm_compute. Qed.

(** [tests/test_nested_api_router.py]: the three routes are served under
    the prefix of [api], and the tag of the inner router reaches the
    application. *)
Example nested_routers_served_paths :
  omap Sample.served_path (routes Sample.app)
    = ["/api/book/english"; "/api/book/chinese"; "/api/book/ws"] /\
  tag_names Sample.app = ["english"] /\
  omap Sample.served_path
    (routes (register_chain (Sample.router "")
               [Sample.router "/api/book"; Sample.api_english]))
    = ["/api/book/english"] /\
  omap Sample.served_methods
    (routes (register_chain (Sample.router "")
               [Sample.router "/api/book"; Sample.api_english]))
    = [("get_english_book", Some {["GET"; "HEAD"]})].
Proof. by vm_compute. Qed.

(** A route and a router without security: the field is not set. *)
Example security_left_unset :
  op_security <$>
    (decorator (U := Sample.utils) POST [] Sample.plain "/book2"
       Sample.no_keywords Sample.get_book).1.1
  = [None].
Proof. by vm_compute. Qed.

(** The same route on a router whose own prefix is [/api]: the router
    serves it at the rule; its prefix is put before the rule when the
    router is registered on another one. *)
Example own_prefix_applied_on_registration :
  omap Sample.served_path (routes Sample.api_with_book) = ["/book2"] /\
  omap Sample.served_path (routes (register_api Sample.plain Sample.api_with_book))
    = ["/api/book2"].
Proof. by vm_compute. Qed.

(** ** The further properties on concrete routers *)

Lemma sample_utils_frame_assigned : UtilsFrameAssigned (U := Sample.utils).
Proof.
  split.
  - intros new_tags old_tags old_tag_names o. simpl. unfold Sample.store_tags.
    destruct (foldl store_tag (old_tags, old_tag_names) new_tags).
    repeat split; reflexivity.
  - intros rs cs o. repeat split; reflexivity.
  - intros func cs o rb d o' H. simpl in H. injection H as <-.
    repeat split; reflexivity.
Defined.

Lemma sample_evolves :
  evolves (U := Sample.utils) Sample.api_with_book Sample.api_with_all.
Proof. apply evolves_register_api, evolves_refl. Defined.

(** X2 on [Sample.api_with_all]. *)
Lemma evolves_routes_well_formed_witness :
  evolves (U := Sample.utils) Sample.api_with_book Sample.api_with_all /\
  Forall route_well_formed (routes Sample.api_with_book) /\
  Forall route_well_formed (routes Sample.api_with_all).
Proof.
  assert (Forall route_well_formed (routes Sample.api_with_book)) as H0.
  { apply Forall_singleton. reflexivity. }
  split; [exact sample_evolves|]. split; [exact H0|].
  exact (proj1 (evolves_routes_well_formed _ _ sample_evolves H0)).
Defined.

(** X3 on [Sample.api]: the id that is given is kept. *)
Lemma decorator_operation_id_witness :
  doc_ui Sample.api = true /\
  kw_doc_ui Sample.documented_keywords = true /\
  exists operation : @Operation string,
    (decorator (U := Sample.utils) POST [] Sample.api "/book2"
       Sample.documented_keywords Sample.get_book).1.1 = [] ++ [operation] /\
    op_operationId operation = Some "create_book".
Proof.
  split; [reflexivity|]. split; [reflexivity|].
  destruct (decorator_operation_id sample_utils_frame_assigned POST []
              Sample.api "/book2" Sample.documented_keywords Sample.get_book
              eq_refl eq_refl) as (operation & Hstore & Hid & _).
  exists operation. split; [exact Hstore|].
  apply Hid; [reflexivity | discriminate].
Defined.

(** X4 on [Sample.api]: [deprecated=False] is kept as [False]. *)
Lemma decorator_operation_deprecated_witness :
  doc_ui Sample.api = true /\
  kw_doc_ui Sample.documented_keywords = true /\
  exists operation : @Operation string,
    (decorator (U := Sample.utils) POST [] Sample.api "/book2"
       Sample.documented_keywords Sample.get_book).1.1 = [] ++ [operation] /\
    op_deprecated operation = Some false.
Proof.
  split; [reflexivity|]. split; [reflexivity|].
  destruct (decorator_operation_deprecated sample_utils_frame_assigned POST []
              Sample.api "/book2" Sample.documented_keywords Sample.get_book
              eq_refl eq_refl) as (operation & Hstore & Hdep & _).
  exists operation. split; [exact Hstore|].
  apply Hdep. reflexivity.
Defined.

(** X5 on [Sample.api]: the external docs that are given are kept. *)
Lemma decorator_operation_external_docs_witness :
  doc_ui Sample.api = true /\
  kw_doc_ui Sample.documented_keywords = true /\
  exists operation : @Operation string,
    (decorator (U := Sample.utils) POST [] Sample.api "/book2"
       Sample.documented_keywords Sample.get_book).1.1 = [] ++ [operation] /\
    op_externalDocs operation
      = Some (ED_dict [("url", "https://www.openapis.org/")]).
Proof.
  split; [reflexivity|]. split; [reflexivity|].
  destruct (decorator_operation_external_docs sample_utils_frame_assigned POST []
              Sample.api "/book2" Sample.documented_keywords Sample.get_book
              eq_refl eq_refl) as (operation & Hstore & Hext & _).
  exists operation. split; [exact Hstore|].
  apply Hext; [reflexivity | discriminate].
Defined.

(** X9 on two routers with the prefixes [/api/] and [/api]. *)
Lemma register_api_paths_trailing_slash_witness :
  url_prefix (Sample.router "/api/") = url_prefix (Sample.router "/api") +:+ "/" /\
  paths (Sample.router "/api/") = paths (Sample.router "/api") /\
  paths (register_api (Sample.router "/api/") Sample.api_book)
    = paths (register_api (Sample.router "/api") Sample.api_book).
Proof.
  split; [reflexivity|]. split; [reflexivity|].
  exact (register_api_paths_trailing_slash (Sample.router "/api")
           (Sample.router "/api/") Sample.api_book eq_refl eq_refl).
Defined.

(** X10 on [Sample.api_with_all]: the prefix and the security of the
    router are its own after the registration. *)
Lemma evolves_settings_witness :
  evolves (U := Sample.utils) Sample.api_with_book Sample.api_with_all /\
  url_prefix Sample.api_with_all = url_prefix Sample.api_with_book /\
  security Sample.api_with_all = security Sample.api_with_book.
Proof.
  destruct (evolves_settings _ _ sample_evolves) as (Hp & _ & Hs & _).
  split; [exact sample_evolves|]. split; [exact Hp | exact Hs].
Defined.

(** X11 on [Sample.api_with_all]. *)
Lemma evolves_routes_prefix_witness :
  evolves (U := Sample.utils) Sample.api_with_book Sample.api_with_all /\
  routes Sample.api_with_book `prefix_of` routes Sample.api_with_all.
Proof.
  split; [exact sample_evolves|].
  exact (evolves_routes_prefix _ _ sample_evolves).
Defined.
